(** * secsHandler: message dispatch and correlation layer of secsgem

    A shallow embedding of [secsgem/secsHandler.py] (Python 2) and the
    properties of its resolver, decoder, dispatcher and convenience
    operations.

    Layout:
    - Python values, exceptions and text formatting ([str], [%02d]);
    - packets, stream/function classes, log records;
    - the handler object and the effect monad [Py];
    - the methods of [secsHandler], in source order;
    - the class-attribute store (who shares the descriptor tables);
    - theorems. *)

From stdpp Require Import base strings pretty gmap list.
From Stdlib Require Import ZArith Ascii Lia.

Local Open Scope Z_scope.

(** ** Python values *)

(** The values that cross the handler: callback results, message
    parameters and decoded value trees. *)
#[local] Unset Elimination Schemes.
Inductive PyVal : Type :=
| PyNone
| PyBool (b : bool)
| PyInt (n : Z)
| PyStr (s : string)
| PyList (items : list PyVal)
| PyDict (entries : list (string * PyVal)).
#[local] Set Elimination Schemes.

(** [v is False]: identity with the singleton [False].  [0], [None], [""]
    and [[]] are falsy, but none of them is the object [False]. *)
Definition is_False (v : PyVal) : bool :=
  match v with
  | PyBool false => true
  | _ => false
  end.

(** An exception instance, as far as the handler looks at it: its class
    and the text [str(e)] gives.  Only classes deriving from [Exception]
    are modelled; these are the ones [except Exception] catches. *)
Record PyExc : Type := mkExc { exc_class : string; exc_text : string }.

Inductive Outcome (A : Type) : Type :=
| Returned (a : A)
| Raised (e : PyExc).
Arguments Returned {A} a.
Arguments Raised {A} e.

(** ** Text formatting *)

(** [str(n)] for an integer: decimal digits, a leading minus sign for
    negative numbers, no padding. *)
Definition py_str (n : Z) : string := pretty n.

(** [%02d]: at least two characters, padded on the left with zeros.  Only
    the one-digit non-negative numbers are shorter than two characters. *)
Definition format_02d (n : Z) : string :=
  if decide (0 <= n < 10) then "0" +:+ py_str n else py_str n.

Definition newline : string := String (ascii_of_nat 10) EmptyString.

(** ** Packets and stream/function classes *)

Record Header : Type := mkHeader {
  stream : Z;
  function : Z;
  sessionID : Z;
  system : Z;
  requireResponse : bool
}.

Record Packet : Type := mkPacket {
  header : Header;
  data : list Z
}.

(** A [secsSxFx] class of [secsFunctions]: its [__name__], its constructor
    (called with no argument by the decoder, with the parameters by the
    request builders) and its [decode] method.  Both may raise; what they
    compute is the codec's business. *)
Record SecsFunction : Type := mkSecsFunction {
  sf_name : string;
  sf_init : option PyVal -> Outcome PyVal;
  sf_decode : list Z -> Outcome PyVal
}.

(** An instance of a stream/function class holding a value tree. *)
Record SecsObject : Type := mkSecsObject {
  obj_class : SecsFunction;
  obj_value : PyVal
}.

(** [secsStreamsFunctionsHost] and [secsStreamsFunctionsEquipment] are
    dictionaries of dictionaries: stream, then function, then class. *)
Abbreviation Table := (gmap Z (gmap Z SecsFunction)).

(** ** Log records *)

Inductive Level : Type := DEBUG | INFO | WARNING | ERROR.

Inductive LogArg : Type :=
| ArgInt (n : Z)
| ArgStr (s : string)
| ArgPacket (p : Packet)
| ArgObject (o : SecsObject)
| ArgExc (e : PyExc)
| ArgStack.

(** A record keeps the template and its arguments.  The text of a packet,
    of a message object and of the call stack is produced by code outside
    this file, so those arguments stay as they are. *)
Record LogRecord : Type := mkLog {
  lr_level : Level;
  lr_fmt : string;
  lr_args : list LogArg
}.

(** The text the logging module produces from [fmt % args], for the
    directives this file uses on integers and strings.  [None] when an
    argument has no text here or the arguments do not match the
    template. *)
Fixpoint percent_format (fmt : string) (args : list LogArg) : option string :=
  match fmt with
  | EmptyString => match args with [] => Some EmptyString | _ => None end
  | String "%" (String "0" (String "2" (String "d" rest))) =>
      match args with
      | ArgInt n :: args' => (fun s => format_02d n +:+ s) <$> percent_format rest args'
      | _ => None
      end
  | String "%" (String "s" rest) =>
      match args with
      | ArgStr s :: args' => (fun t => s +:+ t) <$> percent_format rest args'
      | ArgInt n :: args' => (fun t => py_str n +:+ t) <$> percent_format rest args'
      | _ => None
      end
  | String c rest => String c <$> percent_format rest args
  end.

Definition getMessage (r : LogRecord) : option string :=
  percent_format (lr_fmt r) (lr_args r).

(** ** The handler object *)

(** A registered callback: a name to tell invocations apart, and what the
    call [callback(self, response)] gives back. *)
Record Callback : Type := mkCallback {
  cb_name : string;
  cb_call : Packet -> Outcome PyVal
}.

(** The transport side of an established connection: the outcome of one
    request/response exchange (a reply packet, [None] or an exception). *)
Record Connection : Type := mkConnection {
  exchange : SecsObject -> Outcome (option Packet)
}.

(** The attributes of [self] that the methods read. *)
Record secsHandler : Type := mkHandler {
  isHost : bool;
  connection : option Connection;
  callbacks : gmap string (list Callback);
  secsStreamsFunctionsHost : Table;
  secsStreamsFunctionsEquipment : Table
}.

(** What the methods change: the unclaimed-packet queue, the log, the
    callbacks invoked so far and the messages handed to the transport. *)
Record Effects : Type := mkEffects {
  packetQueue : list Packet;
  logged : list LogRecord;
  invoked : list (string * Packet);
  sent : list SecsObject
}.

Definition no_effects : Effects := mkEffects [] [] [] [].

(** A started thread: its name and the arguments of its target
    [_runCallbacks]. *)
Record Thread : Type := mkThread {
  thread_name : string;
  thread_index : string;
  thread_packet : Packet
}.

(** ** The effect monad *)

Definition Py (A : Type) : Type := Effects -> Outcome A * Effects.

Definition ret {A} (a : A) : Py A := fun w => (Returned a, w).
Definition raise {A} (e : PyExc) : Py A := fun w => (Raised e, w).
Definition bind {A B} (m : Py A) (k : A -> Py B) : Py B :=
  fun w =>
    match m w with
    | (Returned a, w') => k a w'
    | (Raised e, w') => (Raised e, w')
    end.
Definition lift {A} (o : Outcome A) : Py A := fun w => (o, w).

(** [try: body except Exception, e: handler(e)] *)
Definition try_except {A} (body : Py A) (handler : PyExc -> Py A) : Py A :=
  fun w =>
    match body w with
    | (Returned a, w') => (Returned a, w')
    | (Raised e, w') => handler e w'
    end.

Declare Scope py_scope.
Delimit Scope py_scope with py.
Notation "x <- m ;; k" := (bind m (fun x => k))
  (at level 100, m at next level, right associativity) : py_scope.
Notation "m ;;; k" := (bind m (fun _ => k))
  (at level 100, right associativity) : py_scope.
Local Open Scope py_scope.

Definition logger (lvl : Level) (fmt : string) (args : list LogArg) : Py unit :=
  fun w => (Returned tt,
            mkEffects (packetQueue w) (logged w ++ [mkLog lvl fmt args])
                      (invoked w) (sent w)).

(** The call [callback(self, response)], recorded in the trace. *)
Definition invoke (callback : Callback) (response : Packet) : Py PyVal :=
  fun w => (cb_call callback response,
            mkEffects (packetQueue w) (logged w)
                      (invoked w ++ [(cb_name callback, response)]) (sent w)).

(** Modelled from the spec: [_queuePacket] is defined in [hsmsHandler],
    which is not part of this file; it pushes the packet on the
    order-preserving Unclaimed-Packet Queue. *)
Definition _queuePacket (packet : Packet) : Py unit :=
  fun w => (Returned tt,
            mkEffects (packetQueue w ++ [packet]) (logged w)
                      (invoked w) (sent w)).

(** Modelled from the spec: [sendAndWaitForResponse] is defined in
    [hsmsHandler]; it returns [None] at once when there is no connection,
    otherwise it hands the message to the transport and waits for the
    packet that answers it.  Which packet the wait takes off the queue is
    the transport's matching: [exchange] gives its outcome, and taking the
    reply off the queue is not modelled. *)
Definition sendAndWaitForResponse (self : secsHandler) (message : SecsObject)
  : Py (option Packet) :=
  match connection self with
  | None => ret None
  | Some conn =>
      fun w => (exchange conn message,
                mkEffects (packetQueue w) (logged w) (invoked w)
                          (sent w ++ [message]))
  end.

(** ** Exceptions raised by the interpreter *)

Definition KeyError (key : string) : PyExc :=
  mkExc "KeyError" ("'" +:+ key +:+ "'").
Definition NoneType_not_callable : PyExc :=
  mkExc "TypeError" "'NoneType' object is not callable".
Definition NoneType_no_attribute (name : string) : PyExc :=
  mkExc "AttributeError" ("'NoneType' object has no attribute '" +:+ name +:+ "'").
Definition list_index_out_of_range : PyExc :=
  mkExc "IndexError" "list index out of range".

(** ** Methods of [secsHandler] *)

(** The loop of [_runCallbacks]:
    [for callback in ...: if not callback(self, response) is False: handeled = True] *)
Fixpoint call_each (cbs : list Callback) (response : Packet) (handeled : bool)
  : Py bool :=
  match cbs with
  | [] => ret handeled
  | callback :: rest =>
      r <- invoke callback response ;;
      call_each rest response (if negb (is_False r) then true else handeled)
  end.

Definition CallbackRunner_fmt : string :=
  "secsHandler.CallbackRunner : exception {0}" +:+ newline.

(** [self.callbacks[callback_index]] raises [KeyError] on a missing key. *)
Definition callbacks_getitem (self : secsHandler) (callback_index : string)
  : Py (list Callback) :=
  match callbacks self !! callback_index with
  | Some cbs => ret cbs
  | None => raise (KeyError callback_index)
  end.

(** One [try] around the whole loop and the push; the handler logs the
    exception text followed by the formatted call stack. *)
Definition _runCallbacks (self : secsHandler) (callback_index : string)
    (response : Packet) : Py unit :=
  try_except
    (cbs <- callbacks_getitem self callback_index ;;
     handeled <- call_each cbs response false ;;
     if negb handeled then _queuePacket response else ret tt)
    (fun e => logger ERROR CallbackRunner_fmt [ArgExc e; ArgStack]).

(** [streamFunction]: the table of the handler's own role. *)
Definition streamFunction (self : secsHandler) (stream function : Z)
  : Py (option SecsFunction) :=
  let secs_streams_functions :=
    if isHost self then secsStreamsFunctionsHost self
    else secsStreamsFunctionsEquipment self in
  match secs_streams_functions !! stream with
  | None =>
      logger WARNING "unknown function S%02dF%02d" [ArgInt stream; ArgInt function] ;;;
      ret None
  | Some functions =>
      match functions !! function with
      | None =>
          logger WARNING "unknown function S%02dF%02d" [ArgInt stream; ArgInt function] ;;;
          ret None
      | Some cls => ret (Some cls)
      end
  end.

(** The table [secsDecode] reads. *)
Definition decode_table (self : secsHandler) : Table :=
  if isHost self then secsStreamsFunctionsEquipment self
  else secsStreamsFunctionsHost self.

(** [secsDecode].  The two debug records are built with [str.format] in the
    source; the record keeps the template and the arguments. *)
Definition secsDecode (self : secsHandler) (packet : Packet)
  : Py (option SecsObject) :=
  let secs_streams_functions := decode_table self in
  let s := stream (header packet) in
  let f := function (header packet) in
  match secs_streams_functions !! s with
  | None =>
      logger WARNING "unknown function S%02dF%02d" [ArgInt s; ArgInt f] ;;;
      ret None
  | Some functions =>
      match functions !! f with
      | None =>
          logger WARNING "unknown function S%02dF%02d" [ArgInt s; ArgInt f] ;;;
          ret None
      | Some cls =>
          logger DEBUG "decoding function S{}F{} using {}"
                 [ArgInt s; ArgInt f; ArgStr (sf_name cls)] ;;;
          _ <- lift (sf_init cls None) ;;
          v <- lift (sf_decode cls (data packet)) ;;
          let function := mkSecsObject cls v in
          logger DEBUG "decoded {}" [ArgObject function] ;;;
          ret (Some function)
      end
  end.

(** [_onHsmsPacketReceived], source lines 127 to 132: the dispatch key, the
    membership test and the two branches.  The result is the thread that was
    started, if any; its body runs when the scheduler picks it
    ([run_thread]). *)
Definition dispatch (self : secsHandler) (packet : Packet) : Py (option Thread) :=
  let callback_index :=
    "s" +:+ py_str (stream (header packet)) +:+ "f" +:+ py_str (function (header packet)) in
  if decide (is_Some (callbacks self !! callback_index)) then
    ret (Some (mkThread ("secsgem_secsHandler_callback_" +:+ callback_index)
                        callback_index packet))
  else
    _queuePacket packet ;;; ret None.

(** [_onHsmsPacketReceived]: decode, log the packet, dispatch. *)
Definition _onHsmsPacketReceived (self : secsHandler) (packet : Packet)
  : Py (option Thread) :=
  message <- secsDecode self packet ;;
  match message with
  | None => logger INFO "< %s" [ArgPacket packet]
  | Some m => logger INFO ("< %s" +:+ newline +:+ "%s") [ArgPacket packet; ArgObject m]
  end ;;;
  dispatch self packet.

Definition run_thread (self : secsHandler) (t : Thread) : Py unit :=
  _runCallbacks self (thread_index t) (thread_packet t).

(** The thread started for a packet, if there is one, run to its end. *)
Definition join (self : secsHandler) (started : option Thread) : Py unit :=
  match started with
  | Some t => run_thread self t
  | None => ret tt
  end.

(** One packet from arrival to the end of its callback thread. *)
Definition deliver (self : secsHandler) (packet : Packet) : Py unit :=
  started <- _onHsmsPacketReceived self packet ;;
  join self started.

(** The receive loop: packets delivered one after the other; an exception
    leaving [_onHsmsPacketReceived] ends the loop. *)
Fixpoint deliver_all (self : secsHandler) (packets : list Packet) : Py unit :=
  match packets with
  | [] => ret tt
  | p :: rest => deliver self p ;;; deliver_all self rest
  end.

(** ** Convenience operations *)

(** What a convenience operation hands back: [None], the reply packet,
    a decoded message object, or a plain value. *)
Inductive Result : Type :=
| RNone
| RPacket (p : Packet)
| RObject (o : SecsObject)
| RValue (v : PyVal).

Definition of_packet (p : option Packet) : Result :=
  match p with Some p => RPacket p | None => RNone end.
Definition of_object (o : option SecsObject) : Result :=
  match o with Some o => RObject o | None => RNone end.

(** [self.streamFunction(s, f)(args)]: calling what the resolver returned.
    Calling [None] raises [TypeError]. *)
Definition call_class (cls : option SecsFunction) (args : option PyVal)
  : Py SecsObject :=
  match cls with
  | None => raise NoneType_not_callable
  | Some c => v <- lift (sf_init c args) ;; ret (mkSecsObject c v)
  end.

(** [self.secsDecode(packet)] on what [sendAndWaitForResponse] returned:
    [packet.header] on [None] raises [AttributeError]. *)
Definition secsDecode_reply (self : secsHandler) (packet : option Packet)
  : Py (option SecsObject) :=
  match packet with
  | None => raise (NoneType_no_attribute "header")
  | Some p => secsDecode self p
  end.

(** [r[0]].  On [None] Python 2 raises [TypeError]; on a message object
    the first item of its value list is taken. *)
Definition subscript_0 (r : Result) : Py Result :=
  match r with
  | RNone => raise (mkExc "TypeError" "'NoneType' object has no attribute '__getitem__'")
  | RObject o =>
      match obj_value o with
      | PyList (v :: _) => ret (RValue v)
      | PyList [] => raise list_index_out_of_range
      | _ => raise (mkExc "TypeError" "object does not support indexing")
      end
  | RValue (PyList (v :: _)) => ret (RValue v)
  | RValue (PyList []) => raise list_index_out_of_range
  | _ => raise (mkExc "TypeError" "object does not support indexing")
  end.

(** A request that returns the reply packet as it is. *)
Definition request_packet (self : secsHandler) (s f : Z) (args : option PyVal)
  : Py Result :=
  cls <- streamFunction self s f ;;
  message <- call_class cls args ;;
  packet <- sendAndWaitForResponse self message ;;
  ret (of_packet packet).

(** A request whose reply is decoded before it is returned. *)
Definition request_decoded (self : secsHandler) (s f : Z) (args : option PyVal)
  : Py Result :=
  cls <- streamFunction self s f ;;
  message <- call_class cls args ;;
  packet <- sendAndWaitForResponse self message ;;
  o <- secsDecode_reply self packet ;;
  ret (of_object o).

Definition disableCEIDs (self : secsHandler) : Py Result :=
  match connection self with
  | None => ret RNone
  | Some _ =>
      request_packet self 2 37
        (Some (PyDict [("CEED", PyBool false); ("CEID", PyList [])]))
  end.

Definition disableCEIDReports (self : secsHandler) : Py Result :=
  match connection self with
  | None => ret RNone
  | Some _ =>
      request_packet self 2 33
        (Some (PyDict [("DATAID", PyInt 0); ("DATA", PyList [])]))
  end.

Definition listSVs (self : secsHandler) : Py Result :=
  match connection self with
  | None => ret RNone
  | Some _ => request_decoded self 1 11 (Some (PyList []))
  end.

Definition requestSVs (self : secsHandler) (svs : PyVal) : Py Result :=
  match connection self with
  | None => ret RNone
  | Some _ => request_decoded self 1 3 (Some svs)
  end.

(** [return self.requestSVs([sv])[0]] *)
Definition requestSV (self : secsHandler) (sv : PyVal) : Py Result :=
  r <- requestSVs self (PyList [sv]) ;;
  subscript_0 r.

Definition listECs (self : secsHandler) : Py Result :=
  match connection self with
  | None => ret RNone
  | Some _ => request_decoded self 2 29 (Some (PyList []))
  end.

Definition requestECs (self : secsHandler) (ecs : PyVal) : Py Result :=
  match connection self with
  | None => ret RNone
  | Some _ => request_decoded self 2 13 (Some ecs)
  end.

(** [return self.requestECs([ec])] *)
Definition requestEC (self : secsHandler) (ec : PyVal) : Py Result :=
  requestECs self (PyList [ec]).

(** [return self.secsDecode(packet).get()] *)
Definition setECs (self : secsHandler) (ecs : PyVal) : Py Result :=
  match connection self with
  | None => ret RNone
  | Some _ =>
      cls <- streamFunction self 2 15 ;;
      message <- call_class cls (Some ecs) ;;
      packet <- sendAndWaitForResponse self message ;;
      o <- secsDecode_reply self packet ;;
      match o with
      | None => raise (NoneType_no_attribute "get")
      | Some o => ret (RValue (obj_value o))
      end
  end.

Definition setEC (self : secsHandler) (ec value : PyVal) : Py Result :=
  setECs self (PyList [PyList [ec; value]]).

Definition sendEquipmentTerminal (self : secsHandler) (terminal_id text : PyVal)
  : Py Result :=
  match connection self with
  | None => ret RNone
  | Some _ =>
      request_packet self 10 3 (Some (PyDict [("TID", terminal_id); ("TEXT", text)]))
  end.

(** The connected branch ends without a [return]: the result is [None]. *)
Definition areYouThere (self : secsHandler) : Py Result :=
  match connection self with
  | None => ret RNone
  | Some _ =>
      cls <- streamFunction self 1 1 ;;
      message <- call_class cls None ;;
      _ <- sendAndWaitForResponse self message ;;
      ret RNone
  end.

(** The convenience operations under one name each, with the arguments
    of the call. *)
Inductive Operation : Type :=
| OpDisableCEIDs
| OpDisableCEIDReports
| OpListSVs
| OpRequestSVs (svs : PyVal)
| OpRequestSV (sv : PyVal)
| OpListECs
| OpRequestECs (ecs : PyVal)
| OpRequestEC (ec : PyVal)
| OpSetECs (ecs : PyVal)
| OpSetEC (ec value : PyVal)
| OpSendEquipmentTerminal (terminal_id text : PyVal)
| OpAreYouThere.

Definition perform (self : secsHandler) (op : Operation) : Py Result :=
  match op with
  | OpDisableCEIDs => disableCEIDs self
  | OpDisableCEIDReports => disableCEIDReports self
  | OpListSVs => listSVs self
  | OpRequestSVs svs => requestSVs self svs
  | OpRequestSV sv => requestSV self sv
  | OpListECs => listECs self
  | OpRequestECs ecs => requestECs self ecs
  | OpRequestEC ec => requestEC self ec
  | OpSetECs ecs => setECs self ecs
  | OpSetEC ec value => setEC self ec value
  | OpSendEquipmentTerminal terminal_id text => sendEquipmentTerminal self terminal_id text
  | OpAreYouThere => areYouThere self
  end.

(** ** The object store: who holds the descriptor tables *)

(** Dictionaries are objects; an attribute holds a reference to one.  A
    table and the per-stream dictionaries inside it are taken as one
    object, which is what [copy.deepcopy] produces: a copy none of whose
    dictionaries is reachable from anywhere else.  The classes inside are
    not copied ([deepcopy] returns a class as it is). *)
Module Store.

Definition loc : Type := nat.
Abbreviation Heap := (gmap nat Table).

Inductive Role : Type := Host | Equipment.

(** [copy.deepcopy(d)]: a new object with the content of [d]. *)
Definition deepcopy (h : Heap) (l : loc) : option (loc * Heap) :=
  match h !! l with
  | Some t => let l' := fresh (dom h) in Some (l', <[l' := t]> h)
  | None => None
  end.

(** The module [secsFunctions]: the two shared prototype tables. *)
Record Prototypes : Type := mkPrototypes {
  proto_Host : loc;
  proto_Equipment : loc
}.

(** The class object [secsHandler]: its two table attributes. *)
Record Class : Type := mkClass {
  class_Host : loc;
  class_Equipment : loc
}.

(** The class body, run once when the module is imported:
    [secsStreamsFunctionsHost = copy.deepcopy(secsFunctions.secsStreamsFunctionsHost)]
    and the same for the equipment table. *)
Definition class_body (h : Heap) (protos : Prototypes) : option (Class * Heap) :=
  match deepcopy h (proto_Host protos) with
  | Some (lh, h1) =>
      match deepcopy h1 (proto_Equipment protos) with
      | Some (le, h2) => Some (mkClass lh le, h2)
      | None => None
      end
  | None => None
  end.

(** An instance: the arguments it was built from and its own dictionary,
    as far as the two table attributes go. *)
Record Instance : Type := mkInstance {
  inst_name : string;
  inst_isHost : bool;
  inst_Host : option loc;
  inst_Equipment : option loc
}.

(** [__init__]: the two base initialisers, the logger, [self.isHost = True].
    Nothing is bound to the table attributes and nothing is copied. *)
Definition __init__ (name : string) : Instance :=
  mkInstance name true None None.

(** [self.secsStreamsFunctionsHost] / [self.secsStreamsFunctionsEquipment]:
    the instance dictionary first, then the class. *)
Definition getattr (c : Class) (self : Instance) (r : Role) : loc :=
  match r with
  | Host => default (class_Host c) (inst_Host self)
  | Equipment => default (class_Equipment c) (inst_Equipment self)
  end.

(** The table an instance sees. *)
Definition read (h : Heap) (c : Class) (self : Instance) (r : Role) : option Table :=
  h !! getattr c self r.

(** An in-place change of the dictionary reached through an instance, such
    as [self.secsStreamsFunctionsHost[s][f] = cls]. *)
Definition mutate (h : Heap) (c : Class) (self : Instance) (r : Role)
    (change : Table -> Table) : Heap :=
  alter change (getattr c self r) h.

(** [d[s][f] = cls] on a table; a missing stream gets a new dictionary. *)
Definition set_function (s f : Z) (cls : SecsFunction) (t : Table) : Table :=
  <[s := <[f := cls]> (default ∅ (t !! s))]> t.

(** The handler of the dispatch model as an instance sees it now. *)
Definition snapshot (h : Heap) (c : Class) (self : Instance)
    (conn : option Connection) (cbs : gmap string (list Callback))
  : option secsHandler :=
  match read h c self Host, read h c self Equipment with
  | Some th, Some te => Some (mkHandler (inst_isHost self) conn cbs th te)
  | _, _ => None
  end.

End Store.

(** ** Reading the effects *)

Definition with_log (w : Effects) (rs : list LogRecord) : Effects :=
  mkEffects (packetQueue w) (logged w ++ rs) (invoked w) (sent w).
Definition with_queued (w : Effects) (p : Packet) : Effects :=
  mkEffects (packetQueue w ++ [p]) (logged w) (invoked w) (sent w).
Definition with_invoked (w : Effects) (calls : list (string * Packet)) : Effects :=
  mkEffects (packetQueue w) (logged w) (invoked w ++ calls) (sent w).

Definition unknown_function (s f : Z) : LogRecord :=
  mkLog WARNING "unknown function S%02dF%02d" [ArgInt s; ArgInt f].

(** The descriptor a table holds for a stream and a function. *)
Definition resolve (t : Table) (s f : Z) : option SecsFunction :=
  match t !! s with
  | Some functions => functions !! f
  | None => None
  end.

(** What the decoder does once the descriptor is looked up: the warning on
    a miss, otherwise an empty instance, its [decode] on the body and the
    two debug lines. *)
Definition decode_as (found : option SecsFunction) (packet : Packet)
  : Py (option SecsObject) :=
  match found with
  | None =>
      fun w => (Returned None,
                with_log w [unknown_function (stream (header packet))
                                             (function (header packet))])
  | Some cls =>
      logger DEBUG "decoding function S{}F{} using {}"
             [ArgInt (stream (header packet)); ArgInt (function (header packet));
              ArgStr (sf_name cls)] ;;;
      _ <- lift (sf_init cls None) ;;
      v <- lift (sf_decode cls (data packet)) ;;
      logger DEBUG "decoded {}" [ArgObject (mkSecsObject cls v)] ;;;
      ret (Some (mkSecsObject cls v))
  end.

(** Whether a call of the callback sets [handeled]. *)
Definition sets_handeled (response : Packet) (c : Callback) : bool :=
  match cb_call c response with
  | Returned v => negb (is_False v)
  | Raised _ => false
  end.

Definition calls_of (response : Packet) (cbs : list Callback)
  : list (string * Packet) :=
  map (fun c => (cb_name c, response)) cbs.

(** ** Vocabulary of the statements and sample data *)

(** The handler with the table of its own role replaced. *)
Definition set_own_table (self : secsHandler) (t : Table) : secsHandler :=
  if isHost self
  then mkHandler (isHost self) (connection self) (callbacks self)
                 t (secsStreamsFunctionsEquipment self)
  else mkHandler (isHost self) (connection self) (callbacks self)
                 (secsStreamsFunctionsHost self) t.

Definition sample_packet (s f : Z) : Packet :=
  mkPacket (mkHeader s f 0 1 false) [].

Definition declining (name : string) : Callback :=
  mkCallback name (fun _ => Returned (PyBool false)).
Definition returning (name : string) (v : PyVal) : Callback :=
  mkCallback name (fun _ => Returned v).
Definition raising (name : string) : Callback :=
  mkCallback name (fun _ => Raised (mkExc "ValueError" "bad report")).

(** A class whose codec accepts every body, and one whose [decode]
    rejects every body. *)
Definition plain_class (name : string) : SecsFunction :=
  mkSecsFunction name (fun args => Returned (default (PyList []) args))
                 (fun body => Returned (PyList (PyInt <$> body))).
Definition strict_class (name : string) : SecsFunction :=
  mkSecsFunction name (fun args => Returned (default (PyList []) args))
                 (fun _ => Raised (mkExc "ValueError" "malformed item")).

Definition sample_handler (cbs : gmap string (list Callback)) : secsHandler :=
  mkHandler true None cbs
            {[ 1 := {[ 3 := plain_class "secsS01F03" ]} ]}
            {[ 1 := {[ 4 := plain_class "secsS01F04" ]};
               6 := {[ 11 := strict_class "secsS06F11" ]} ]}.

(** The key of the thread that was started, if one was. *)
Definition started_index (r : Outcome (option Thread) * Effects) : option string :=
  match r.1 with
  | Returned (Some t) => Some (thread_index t)
  | _ => None
  end.

Definition decoding_record (s f : Z) (cls : SecsFunction) : LogRecord :=
  mkLog DEBUG "decoding function S{}F{} using {}"
        [ArgInt s; ArgInt f; ArgStr (sf_name cls)].
Definition decoded_record (o : SecsObject) : LogRecord :=
  mkLog DEBUG "decoded {}" [ArgObject o].
Definition received_record (packet : Packet) (message : option SecsObject) : LogRecord :=
  match message with
  | None => mkLog INFO "< %s" [ArgPacket packet]
  | Some m => mkLog INFO ("< %s" +:+ newline +:+ "%s") [ArgPacket packet; ArgObject m]
  end.

Definition is_requestSV (op : Operation) : bool :=
  match op with OpRequestSV _ => true | _ => false end.

Definition sample_heap : Store.Heap :=
  {[ 0%nat := secsStreamsFunctionsHost (sample_handler ∅);
     1%nat := secsStreamsFunctionsEquipment (sample_handler ∅) ]}.
Definition sample_prototypes : Store.Prototypes := Store.mkPrototypes 0%nat 1%nat.

(** What an instance finds for a stream and a function in a table of its
    own: the name of the class. *)
Definition seen_by (h : Store.Heap) (c : Store.Class) (self : Store.Instance)
    (r : Store.Role) (s f : Z) : option string :=
  match Store.read h c self r with
  | Some t => sf_name <$> resolve t s f
  | None => None
  end.

(** ** Further vocabulary: keys, roles, catalogues *)

(** The key [_onHsmsPacketReceived] computes for a stream and a function. *)
Definition callback_index (s f : Z) : string :=
  "s" +:+ py_str s +:+ "f" +:+ py_str f.

(** A string in which the character does not occur. *)
Fixpoint free_of (a : ascii) (s : string) : Prop :=
  match s with
  | EmptyString => True
  | String c rest => c <> a /\ free_of a rest
  end.

(** The table [streamFunction] reads. *)
Definition own_table (self : secsHandler) : Table :=
  if isHost self then secsStreamsFunctionsHost self
  else secsStreamsFunctionsEquipment self.

(** The handler with the table of the other role replaced. *)
Definition set_other_table (self : secsHandler) (t : Table) : secsHandler :=
  if isHost self
  then mkHandler (isHost self) (connection self) (callbacks self)
                 (secsStreamsFunctionsHost self) t
  else mkHandler (isHost self) (connection self) (callbacks self)
                 t (secsStreamsFunctionsEquipment self).

(** The handler at the other end of the connection: the same two tables,
    the other role. *)
Definition peer (self : secsHandler) (conn : option Connection)
    (cbs : gmap string (list Callback)) : secsHandler :=
  mkHandler (negb (isHost self)) conn cbs
            (secsStreamsFunctionsHost self) (secsStreamsFunctionsEquipment self).

(** The decoder gets through the packet: the class, if there is one, can
    be instantiated and accepts the body. *)
Definition decoder_returns (self : secsHandler) (packet : Packet) : Prop :=
  match resolve (decode_table self) (stream (header packet)) (function (header packet)) with
  | None => True
  | Some cls =>
      (exists v0, sf_init cls None = Returned v0)
      /\ (exists v, sf_decode cls (data packet) = Returned v)
  end.

(** The key of the packet is not in [callbacks]: the receive path queues
    the packet itself, without a thread. *)
Definition unclaimed (self : secsHandler) (packet : Packet) : Prop :=
  callbacks self !! callback_index (stream (header packet)) (function (header packet))
  = None.

(** The stream and function each convenience operation asks the resolver
    for, and the arguments it builds the message from. *)
Definition operation_function (op : Operation) : Z * Z :=
  match op with
  | OpDisableCEIDs => (2, 37)
  | OpDisableCEIDReports => (2, 33)
  | OpListSVs => (1, 11)
  | OpRequestSVs _ | OpRequestSV _ => (1, 3)
  | OpListECs => (2, 29)
  | OpRequestECs _ | OpRequestEC _ => (2, 13)
  | OpSetECs _ | OpSetEC _ _ => (2, 15)
  | OpSendEquipmentTerminal _ _ => (10, 3)
  | OpAreYouThere => (1, 1)
  end.

Definition operation_arguments (op : Operation) : option PyVal :=
  match op with
  | OpDisableCEIDs => Some (PyDict [("CEED", PyBool false); ("CEID", PyList [])])
  | OpDisableCEIDReports => Some (PyDict [("DATAID", PyInt 0); ("DATA", PyList [])])
  | OpListSVs => Some (PyList [])
  | OpRequestSVs svs => Some svs
  | OpRequestSV sv => Some (PyList [sv])
  | OpListECs => Some (PyList [])
  | OpRequestECs ecs => Some ecs
  | OpRequestEC ec => Some (PyList [ec])
  | OpSetECs ecs => Some ecs
  | OpSetEC ec value => Some (PyList [PyList [ec; value]])
  | OpSendEquipmentTerminal terminal_id text =>
      Some (PyDict [("TID", terminal_id); ("TEXT", text)])
  | OpAreYouThere => None
  end.

(** The operations that pass the reply to [secsDecode]. *)
Definition decodes_reply (op : Operation) : bool :=
  match op with
  | OpListSVs | OpRequestSVs _ | OpRequestSV _ | OpListECs | OpRequestECs _
  | OpRequestEC _ | OpSetECs _ | OpSetEC _ _ => true
  | _ => false
  end.

(** The class dictionaries [ceids] and [dvs]: an identifier, then the
    properties of the entry by name. *)
Record Catalogue : Type := mkCatalogue {
  ceids : gmap Z (gmap string PyVal);
  dvs : gmap Z (gmap string PyVal)
}.

(** [getCEIDName]: the ["name"] of the entry, or the empty string when the
    identifier or the name is missing. *)
Definition getCEIDName (self : Catalogue) (ceid : Z) : PyVal :=
  match ceids self !! ceid with
  | Some entry =>
      match entry !! "name" with
      | Some name => name
      | None => PyStr ""
      end
  | None => PyStr ""
  end.

(** [getDVIDName]: the same on [dvs]. *)
Definition getDVIDName (self : Catalogue) (dvid : Z) : PyVal :=
  match dvs self !! dvid with
  | Some entry =>
      match entry !! "name" with
      | Some name => name
      | None => PyStr ""
      end
  | None => PyStr ""
  end.

(** The class [secsHandler] as written: both dictionaries are empty. *)
Definition base_catalogue : Catalogue := mkCatalogue ∅ ∅.

(** A computation that leaves the queue, the invocations and the
    messages sent as they are (it may log). *)
Definition quiet {A : Type} (m : Py A) : Prop :=
  forall w : Effects,
    packetQueue (m w).2 = packetQueue w
    /\ invoked (m w).2 = invoked w
    /\ sent (m w).2 = sent w.

(** The kinds of result each convenience operation can hand back.
    Nothing is said of [requestSV], whose result is what subscripting the
    decoded message gives. *)
Definition result_shape (op : Operation) (r : Result) : bool :=
  match op with
  | OpRequestSV _ => true
  | OpAreYouThere =>
      match r with RNone => true | _ => false end
  | OpDisableCEIDs | OpDisableCEIDReports | OpSendEquipmentTerminal _ _ =>
      match r with RNone | RPacket _ => true | _ => false end
  | OpListSVs | OpRequestSVs _ | OpListECs | OpRequestECs _ | OpRequestEC _ =>
      match r with RNone | RObject _ => true | _ => false end
  | OpSetECs _ | OpSetEC _ _ =>
      match r with RNone | RValue _ => true | _ => false end
  end.

(** * Theorems *)

(** ** Text of integers *)

Example py_str_11 : py_str 11 = "11".
Proof. reflexivity. Qed.

Example format_02d_6 : format_02d 6 = "06".
Proof. reflexivity. Qed.

Example format_02d_127 : format_02d 127 = "127".
Proof. reflexivity. Qed.

Example format_02d_neg : format_02d (-1) = "-1".
Proof. reflexivity. Qed.

Lemma pretty_N_go_length x s :
  (0 < x)%N -> (S (String.length s) <= String.length (pretty_N_go x s))%nat.
Proof.
  revert s. induction (N.lt_wf_0 x) as [x _ IH]; intros s Hx.
  rewrite pretty_N_go_step by done.
  destruct (decide (x `div` 10 = 0)%N) as [->|Hd].
  - rewrite pretty_N_go_0. simpl. lia.
  - assert (x `div` 10 < x)%N as Hlt by (apply N.div_lt; lia).
    pose proof (IH _ Hlt (String (pretty_N_char (x `mod` 10)) s)
                  (proj1 (N.neq_0_lt_0 _) Hd)) as Hl.
    simpl in Hl. lia.
Qed.

Lemma pretty_N_go_length_2 x s :
  (10 <= x)%N -> (S (S (String.length s)) <= String.length (pretty_N_go x s))%nat.
Proof.
  intros Hx. rewrite pretty_N_go_step by lia.
  assert (0 < x `div` 10)%N as Hpos by (apply N.div_str_pos_iff; lia).
  pose proof (pretty_N_go_length _ (String (pretty_N_char (x `mod` 10)) s) Hpos) as Hl.
  simpl in Hl. lia.
Qed.

Lemma py_str_digit (n : Z) : String.length (py_str (n mod 10)) = 1%nat.
Proof.
  pose proof (Z.mod_pos_bound n 10 eq_refl) as Hb.
  assert (n mod 10 = 0 \/ n mod 10 = 1 \/ n mod 10 = 2 \/ n mod 10 = 3 \/ n mod 10 = 4
          \/ n mod 10 = 5 \/ n mod 10 = 6 \/ n mod 10 = 7 \/ n mod 10 = 8 \/ n mod 10 = 9)
    as Hc by lia.
  destruct Hc as [-> |[-> |[-> |[-> |[-> |[-> |[-> |[-> |[-> | ->]]]]]]]]]; reflexivity.
Qed.

Lemma py_str_pos_length (p : positive) :
  (1 <= String.length (py_str (Z.pos p)))%nat
  /\ (10 <= Z.pos p -> (2 <= String.length (py_str (Z.pos p)))%nat).
Proof.
  unfold py_str, pretty, pretty_Z, pretty, pretty_positive, pretty, pretty_N.
  destruct (decide (N.pos p = 0%N)) as [|_]; [done|]. split.
  - pose proof (pretty_N_go_length (N.pos p) "" ltac:(lia)) as Hl. simpl in Hl. lia.
  - intros Hp.
    pose proof (pretty_N_go_length_2 (N.pos p) "" ltac:(lia)) as Hl. simpl in Hl. lia.
Qed.

Lemma format_02d_length (n : Z) : (2 <= String.length (format_02d n))%nat.
Proof.
  unfold format_02d. destruct (decide (0 <= n < 10)) as [Hn|Hn].
  - destruct n as [|p|p]; [simpl; lia| |lia].
    pose proof (proj1 (py_str_pos_length p)).
    change ("0" +:+ py_str (Z.pos p)) with (String "0" (py_str (Z.pos p))).
    cbn [String.length]. lia.
  - destruct n as [|p|p]; [lia| |].
    + apply py_str_pos_length. lia.
    + change (py_str (Z.neg p)) with ("-" +:+ py_str (Z.pos p)).
      pose proof (proj1 (py_str_pos_length p)).
      change ("-" +:+ py_str (Z.pos p)) with (String "-" (py_str (Z.pos p))).
      cbn [String.length]. lia.
Qed.

Lemma pretty_N_go_head x s :
  (0 < x)%N -> exists c rest, pretty_N_go x s = String c rest /\ c <> "0"%char.
Proof.
  revert s. induction (N.lt_wf_0 x) as [x _ IH]; intros s Hx.
  rewrite pretty_N_go_step by done.
  destruct (decide (x `div` 10 = 0)%N) as [Hd|Hd].
  - rewrite Hd, pretty_N_go_0. eexists _, _; split; [done|].
    assert (x < 10)%N by (apply N.div_small_iff in Hd; lia).
    rewrite N.mod_small by done.
    assert (x = 1 \/ x = 2 \/ x = 3 \/ x = 4 \/ x = 5 \/ x = 6 \/ x = 7 \/ x = 8 \/ x = 9)%N
      as Hc by lia.
    destruct Hc as [-> |[-> |[-> |[-> |[-> |[-> |[-> |[-> | ->]]]]]]]]; done.
  - apply IH; [apply N.div_lt; lia | by apply N.neq_0_lt_0].
Qed.

Lemma py_str_no_leading_zero (p : positive) :
  exists c rest, py_str (Z.pos p) = String c rest /\ c <> "0"%char.
Proof.
  unfold py_str, pretty, pretty_Z, pretty, pretty_positive, pretty, pretty_N.
  case_decide; [done|]. apply pretty_N_go_head. lia.
Qed.

Lemma format_02d_digit (n : Z) :
  format_02d (n mod 10) = String "0" (py_str (n mod 10)).
Proof.
  unfold format_02d. pose proof (Z.mod_pos_bound n 10 eq_refl).
  destruct (decide (0 <= n mod 10 < 10)); [reflexivity | lia].
Qed.

(** ** The resolver *)

Lemma append_empty_r (s : string) : s +:+ "" = s.
Proof.
  induction s as [|c s IH]; [reflexivity|].
  change (String c s +:+ "") with (String c (s +:+ "")). by rewrite IH.
Qed.

Lemma unknown_function_text (s f : Z) :
  getMessage (unknown_function s f)
  = Some ("unknown function S" +:+ format_02d s +:+ "F" +:+ format_02d f).
Proof.
  unfold getMessage, unknown_function. cbn [lr_fmt lr_args].
  cbv [percent_format fmap option_fmap option_map].
  by rewrite append_empty_r.
Qed.

(** C6.  [streamFunction] reads the host table when the handler is the
    host and the equipment table otherwise.  A stream that is missing and
    a function that is missing under a known stream give the same result,
    [None], and the same single warning record; its text is
    [unknown function S..F..] with both numbers formatted by [%02d], which
    has at least two characters and puts a zero before a one-digit number.
    When both are present the class found is returned and nothing is
    logged. *)
Theorem streamFunction_resolves (self : secsHandler) (s f : Z) (w : Effects) :
  let own := if isHost self then secsStreamsFunctionsHost self
             else secsStreamsFunctionsEquipment self in
  streamFunction self s f w =
    match own !! s with
    | None => (Returned None, with_log w [unknown_function s f])
    | Some functions =>
        match functions !! f with
        | None => (Returned None, with_log w [unknown_function s f])
        | Some cls => (Returned (Some cls), w)
        end
    end
  /\ lr_level (unknown_function s f) = WARNING
  /\ getMessage (unknown_function s f)
     = Some ("unknown function S" +:+ format_02d s +:+ "F" +:+ format_02d f)
  /\ (2 <= String.length (format_02d s))%nat
  /\ (2 <= String.length (format_02d f))%nat
  /\ (forall n : Z, format_02d (n mod 10) = String "0" (py_str (n mod 10))).
Proof.
  cbv zeta. split; [|split; [reflexivity|split; [apply unknown_function_text|]]].
  - unfold streamFunction.
    destruct (isHost self).
    + destruct (secsStreamsFunctionsHost self !! s) as [functions|]; [|reflexivity].
      destruct (functions !! f); reflexivity.
    + destruct (secsStreamsFunctionsEquipment self !! s) as [functions|]; [|reflexivity].
      destruct (functions !! f); reflexivity.
  - auto using format_02d_length, format_02d_digit.
Qed.

(** ** The decoder *)

(** The decoder is its table lookup followed by the decoding proper. *)
Lemma secsDecode_as_lookup (self : secsHandler) (packet : Packet) (w : Effects) :
  secsDecode self packet w
  = decode_as (resolve (decode_table self)
                       (stream (header packet)) (function (header packet)))
              packet w.
Proof.
  unfold secsDecode, resolve, decode_as.
  destruct (decode_table self !! stream (header packet)) as [functions|]; [|reflexivity].
  destruct (functions !! function (header packet)); reflexivity.
Qed.

(** C1.  [secsDecode] looks the packet's stream and function up in the
    equipment table when [isHost] is true and in the host table when it is
    false, and goes on with what it found there; the table of the handler's
    own role has no part in the result. *)
Theorem secsDecode_opposite_table (self : secsHandler) (packet : Packet) (w : Effects) :
  secsDecode self packet w =
    decode_as
      (resolve (if isHost self then secsStreamsFunctionsEquipment self
                else secsStreamsFunctionsHost self)
               (stream (header packet)) (function (header packet)))
      packet w
  /\ (forall t : Table,
        secsDecode (set_own_table self t) packet w = secsDecode self packet w).
Proof.
  split; [exact (secsDecode_as_lookup self packet w)|].
  - intros t. unfold secsDecode, decode_table, set_own_table.
    destruct (isHost self) eqn:Hrole; cbn [isHost secsStreamsFunctionsEquipment
      secsStreamsFunctionsHost]; rewrite ?Hrole; reflexivity.
Qed.

(** A host decodes S1F4, which only the equipment table has, and does
    not decode S1F3, which only the host table has; it builds S1F3 and not
    S1F4. *)
Example host_cross_decoding :
  (secsDecode (sample_handler ∅) (sample_packet 1 4) no_effects).1
  = Returned (Some (mkSecsObject (plain_class "secsS01F04") (PyList [])))
  /\ (secsDecode (sample_handler ∅) (sample_packet 1 3) no_effects).1 = Returned None
  /\ (streamFunction (sample_handler ∅) 1 3 no_effects).1
     = Returned (Some (plain_class "secsS01F03"))
  /\ (streamFunction (sample_handler ∅) 1 4 no_effects).1 = Returned None.
Proof. repeat split; reflexivity. Qed.

(** ** Callback fan-out *)

Lemma with_invoked_nil (w : Effects) : with_invoked w [] = w.
Proof. destruct w. unfold with_invoked. cbn. by rewrite app_nil_r. Qed.

Lemma with_invoked_app (w : Effects) (a b : list (string * Packet)) :
  with_invoked (with_invoked w a) b = with_invoked w (a ++ b).
Proof. unfold with_invoked. cbn. by rewrite app_assoc. Qed.

Lemma with_log_app (w : Effects) (a b : list LogRecord) :
  with_log (with_log w a) b = with_log w (a ++ b).
Proof. unfold with_log. cbn. by rewrite app_assoc. Qed.

Lemma invoke_eq (c : Callback) (response : Packet) (w : Effects) :
  invoke c response w = (cb_call c response, with_invoked w [(cb_name c, response)]).
Proof. reflexivity. Qed.

(** The loop touches nothing but the trace of invocations. *)
Lemma call_each_frame (cbs : list Callback) (response : Packet) (h : bool) (w : Effects) :
  packetQueue (call_each cbs response h w).2 = packetQueue w
  /\ logged (call_each cbs response h w).2 = logged w
  /\ sent (call_each cbs response h w).2 = sent w.
Proof.
  revert h w. induction cbs as [|c cbs IH]; intros h w; [done|].
  cbn [call_each]. unfold bind. rewrite invoke_eq.
  destruct (cb_call c response) as [v|e]; [|done].
  destruct (IH (if negb (is_False v) then true else h)
               (with_invoked w [(cb_name c, response)])) as (Hq & Hl & Hs).
  by rewrite Hq, Hl, Hs.
Qed.

(** When the loop ends normally every callback was called, and [handeled]
    is set if and only if one of them set it. *)
Lemma call_each_returned (cbs : list Callback) (response : Packet) (h b : bool)
    (w w' : Effects) :
  call_each cbs response h w = (Returned b, w') ->
  b = h || existsb (sets_handeled response) cbs
  /\ w' = with_invoked w (calls_of response cbs).
Proof.
  revert h w. induction cbs as [|c cbs IH]; intros h w.
  - cbn. intros [= <- <-]. by rewrite orb_false_r, with_invoked_nil.
  - cbn [call_each]. unfold bind. rewrite invoke_eq. cbn [existsb calls_of map].
    destruct (cb_call c response) as [v|e] eqn:Hc; [|done].
    assert (sets_handeled response c = negb (is_False v)) as ->
      by (unfold sets_handeled; by rewrite Hc).
    intros Hrest. apply IH in Hrest as [-> ->]. split.
    + destruct (negb (is_False v)), h; reflexivity.
    + by rewrite with_invoked_app.
Qed.

(** Callbacks that all return are all called, in the order of the list. *)
Lemma call_each_all_return (cbs : list Callback) (response : Packet) (h : bool)
    (w : Effects) :
  Forall (fun c => exists v, cb_call c response = Returned v) cbs ->
  call_each cbs response h w
  = (Returned (h || existsb (sets_handeled response) cbs),
     with_invoked w (calls_of response cbs)).
Proof.
  intros Hall. revert h w. induction Hall as [|c cbs [v Hc] _ IH]; intros h w.
  - cbn. by rewrite orb_false_r, with_invoked_nil.
  - cbn [call_each]. unfold bind. rewrite invoke_eq, Hc, IH.
    cbn [existsb calls_of map].
    assert (sets_handeled response c = negb (is_False v)) as ->
      by (unfold sets_handeled; by rewrite Hc).
    rewrite with_invoked_app. f_equal. f_equal.
    destruct (negb (is_False v)), h; reflexivity.
Qed.


Lemma declined_sets_nothing (cbs : list Callback) (response : Packet) :
  Forall (fun c => cb_call c response = Returned (PyBool false)) cbs ->
  existsb (sets_handeled response) cbs = false.
Proof.
  induction 1 as [|c cbs Hc _ IH]; [done|].
  cbn [existsb]. rewrite IH. unfold sets_handeled. by rewrite Hc.
Qed.

Lemma is_False_iff (v : PyVal) : is_False v = true <-> v = PyBool false.
Proof.
  split; [|by intros ->].
  destruct v as [|[|]| | | |]; cbn; congruence.
Qed.


(** C3.  When every callback registered under the key returns [False],
    all of them are called, in registration order, and the packet is
    pushed on the queue once (for any number of callbacks, so for
    [N >= 1] too). *)
Theorem all_decline_queued_once (self : secsHandler) (idx : string)
    (response : Packet) (w : Effects) (cbs : list Callback) :
  callbacks self !! idx = Some cbs ->
  Forall (fun c => cb_call c response = Returned (PyBool false)) cbs ->
  _runCallbacks self idx response w
  = (Returned tt, with_queued (with_invoked w (calls_of response cbs)) response).
Proof.
  intros Hcbs Hall.
  unfold _runCallbacks, try_except, bind, callbacks_getitem. rewrite Hcbs. cbn.
  assert (Forall (fun c => exists v, cb_call c response = Returned v) cbs) as Hret.
  { eapply Forall_impl; [exact Hall|]. intros c Hc. by exists (PyBool false). }
  rewrite (call_each_all_return _ _ _ _ Hret).
  by rewrite declined_sets_nothing.
Qed.

Lemma all_decline_queued_once_witness :
  _runCallbacks
    (sample_handler {[ "s6f11" := [declining "first"; declining "second"] ]})
    "s6f11" (sample_packet 6 11) no_effects
  = (Returned tt,
     mkEffects [sample_packet 6 11] []
               [("first", sample_packet 6 11); ("second", sample_packet 6 11)] []).
Proof.
  apply (all_decline_queued_once
           (sample_handler {[ "s6f11" := [declining "first"; declining "second"] ]})
           "s6f11" (sample_packet 6 11) no_effects
           [declining "first"; declining "second"]).
  - reflexivity.
  - repeat constructor.
Defined.

(** C10.  Only the value [False] itself counts as "not handled": [None]
    and every other value set [handeled].  With one callback under the key
    that returns something other than [False], the packet is not pushed on
    the queue, whatever the other callbacks do; and when all callbacks
    return, the packet is pushed exactly when all of them returned
    [False]. *)
Theorem non_False_is_handled (self : secsHandler) (idx : string)
    (response : Packet) (w : Effects) (cbs : list Callback) :
  callbacks self !! idx = Some cbs ->
  (forall v, is_False v = true <-> v = PyBool false)
  /\ is_False PyNone = false
  /\ ((exists c v, c ∈ cbs /\ cb_call c response = Returned v /\ v <> PyBool false) ->
      packetQueue (_runCallbacks self idx response w).2 = packetQueue w)
  /\ (Forall (fun c => exists v, cb_call c response = Returned v) cbs ->
      (packetQueue (_runCallbacks self idx response w).2 = packetQueue w ++ [response]
       <-> Forall (fun c => cb_call c response = Returned (PyBool false)) cbs)).
Proof.
  intros Hcbs. split; [exact is_False_iff|]. split; [reflexivity|].
  unfold _runCallbacks, try_except, bind, callbacks_getitem. rewrite Hcbs. cbn.
  split.
  - intros (c & v & Hin & Hc & Hv).
    pose proof (call_each_frame cbs response false w) as (Hq & _ & _).
    destruct (call_each cbs response false w) as [[b|e] w'] eqn:Hrun; cbn in *.
    + apply call_each_returned in Hrun as [-> _]. cbn.
      assert (existsb (sets_handeled response) cbs = true) as ->; [|done].
      apply existsb_exists. exists c. split; [by apply list_elem_of_In|].
      unfold sets_handeled. rewrite Hc.
      destruct (is_False v) eqn:Hf; [|done]. by apply is_False_iff in Hf.
    + done.
  - intros Hret. rewrite (call_each_all_return _ _ _ _ Hret). cbn. split.
    + intros Hq. apply Forall_forall. intros c Hin.
      destruct (existsb (sets_handeled response) cbs) eqn:Hex; cbn in Hq.
      { exfalso. apply (f_equal (@List.length Packet)) in Hq.
        rewrite List.length_app in Hq. cbn in Hq. lia. }
      rewrite Forall_forall in Hret. destruct (Hret c Hin) as [v Hc].
      rewrite Hc. do 2 f_equal.
      assert (sets_handeled response c = false) as Hs.
      { destruct (sets_handeled response c) eqn:Hs; [|done].
        assert (existsb (sets_handeled response) cbs = true); [|congruence].
        apply existsb_exists. exists c. split; [by apply list_elem_of_In|done]. }
      unfold sets_handeled in Hs. rewrite Hc in Hs.
      apply is_False_iff. by destruct (is_False v).
    + intros Hall. by rewrite declined_sets_nothing.
Qed.

Lemma non_False_is_handled_witness :
  is_False PyNone = false
  /\ packetQueue
       (_runCallbacks
          (sample_handler {[ "s6f11" := [declining "first"; returning "second" PyNone] ]})
          "s6f11" (sample_packet 6 11) no_effects).2 = [].
Proof.
  assert (callbacks
            (sample_handler {[ "s6f11" := [declining "first"; returning "second" PyNone] ]})
            !! "s6f11" = Some [declining "first"; returning "second" PyNone]) as Hcbs
    by reflexivity.
  destruct (non_False_is_handled _ _ (sample_packet 6 11) no_effects _ Hcbs)
    as (_ & Hnone & Hskip & _).
  split; [exact Hnone|]. apply Hskip.
  exists (returning "second" PyNone), PyNone. split; [|split].
  - apply list_elem_of_In. right. left. reflexivity.
  - reflexivity.
  - discriminate.
Defined.




(** ** The dispatcher *)

Example key_s6f11 (cbs : list Callback) :
  started_index
    (dispatch (sample_handler {[ "s6f11" := cbs ]}) (sample_packet 6 11) no_effects)
  = Some "s6f11".
Proof. reflexivity. Qed.

Example key_is_not_padded (cbs : list Callback) :
  started_index
    (dispatch (sample_handler {[ "s06f11" := cbs ]}) (sample_packet 6 11) no_effects)
  = None.
Proof. reflexivity. Qed.

(** The dispatch step, read off its key. *)
Lemma dispatch_by_key (self : secsHandler) (q : Packet) (w : Effects) :
  dispatch self q w
  = match callbacks self !! ("s" +:+ py_str (stream (header q))
                             +:+ "f" +:+ py_str (function (header q))) with
    | Some _ =>
        (Returned (Some (mkThread
           ("secsgem_secsHandler_callback_"
            +:+ ("s" +:+ py_str (stream (header q)) +:+ "f" +:+ py_str (function (header q))))
           ("s" +:+ py_str (stream (header q)) +:+ "f" +:+ py_str (function (header q)))
           q)), w)
    | None => (Returned None, with_queued w q)
    end.
Proof.
  unfold dispatch.
  destruct (callbacks self !! _) as [cbs|] eqn:Hk.
  - destruct (decide (is_Some (Some cbs))) as [_|Hn]; [reflexivity|].
    by destruct Hn.
  - destruct (decide (is_Some (@None (list Callback)))) as [Hs|_]; [|reflexivity].
    by destruct Hs.
Qed.

(** C9.  The callbacks are looked up under ["s"], the stream as [str]
    prints it, ["f"], the function as [str] prints it: a thread is started
    for exactly that key when it is in [callbacks], and the packet is
    queued otherwise.  Packets that agree on stream and function use the
    same key whatever the rest of the header and the body are.  [str] does
    not pad: a one-digit number is one character long, [0] is ["0"], and a
    positive number never starts with the character [0]. *)
Theorem dispatch_key (self : secsHandler) (packet : Packet) (w : Effects) :
  let key := "s" +:+ py_str (stream (header packet))
             +:+ "f" +:+ py_str (function (header packet)) in
  dispatch self packet w
  = match callbacks self !! key with
    | Some _ =>
        (Returned (Some (mkThread ("secsgem_secsHandler_callback_" +:+ key) key packet)), w)
    | None => (Returned None, with_queued w packet)
    end
  /\ (forall (sid sys : Z) (rr : bool) (body : list Z),
        started_index
          (dispatch self
             (mkPacket (mkHeader (stream (header packet)) (function (header packet))
                                 sid sys rr) body) w)
        = started_index (dispatch self packet w))
  /\ (forall n : Z, String.length (py_str (n mod 10)) = 1%nat)
  /\ py_str 0 = "0"
  /\ (forall p : positive, exists c rest,
        py_str (Z.pos p) = String c rest /\ c <> "0"%char).
Proof.
  cbv zeta.
  split; [apply dispatch_by_key|]. split.
  - intros sid sys rr body. unfold started_index. rewrite !dispatch_by_key.
    cbn [header stream function].
    by destruct (callbacks self !! _).
  - auto using py_str_digit, py_str_no_leading_zero.
Qed.

(** The dispatch step alone (source lines 127 to 132): a packet under
    whose key nothing is registered, because the key is absent or because
    its list is empty, is pushed on the queue once by the step and the
    thread it may have started; nothing is called and nothing is logged. *)
Theorem no_callbacks_queued_once (self : secsHandler) (packet : Packet) (w : Effects) :
  let key := "s" +:+ py_str (stream (header packet))
             +:+ "f" +:+ py_str (function (header packet)) in
  callbacks self !! key = None \/ callbacks self !! key = Some [] ->
  (started <- dispatch self packet ;; join self started) w
  = (Returned tt, with_queued w packet).
Proof.
  cbv zeta. intros Hkey. unfold bind.
  rewrite dispatch_by_key.
  destruct Hkey as [Hk|Hk]; rewrite Hk; [reflexivity|].
  unfold join, run_thread, _runCallbacks, try_except, bind, callbacks_getitem.
  cbn [thread_index thread_packet]. by rewrite Hk.
Qed.

Lemma no_callbacks_queued_once_witness :
  (started <- dispatch (sample_handler {[ "s6f11" := [] ]}) (sample_packet 6 11) ;;
   join (sample_handler {[ "s6f11" := [] ]}) started) no_effects
  = (Returned tt, with_queued no_effects (sample_packet 6 11))
  /\ (started <- dispatch (sample_handler ∅) (sample_packet 1 3) ;;
      join (sample_handler ∅) started) no_effects
     = (Returned tt, with_queued no_effects (sample_packet 1 3)).
Proof.
  split.
  - apply (no_callbacks_queued_once (sample_handler {[ "s6f11" := [] ]})
             (sample_packet 6 11) no_effects).
    right. reflexivity.
  - apply (no_callbacks_queued_once (sample_handler ∅) (sample_packet 1 3) no_effects).
    left. reflexivity.
Defined.

(** The same from the arrival of the packet, when the decoder returns. *)
Lemma deliver_no_callbacks (self : secsHandler) (packet : Packet) (w w1 : Effects)
    (message : option SecsObject) :
  let key := "s" +:+ py_str (stream (header packet))
             +:+ "f" +:+ py_str (function (header packet)) in
  callbacks self !! key = None \/ callbacks self !! key = Some [] ->
  secsDecode self packet w = (Returned message, w1) ->
  packetQueue (deliver self packet w).2 = packetQueue w1 ++ [packet].
Proof.
  cbv zeta. intros Hkey Hdec.
  unfold deliver, _onHsmsPacketReceived, bind. rewrite Hdec.
  assert (forall w2 : Effects,
    packetQueue (let (o, w3) := dispatch self packet w2 in
                 match o with
                 | Returned started => join self started w3
                 | Raised e => (Raised e, w3)
                 end).2 = packetQueue w2 ++ [packet]) as Hq.
  { intros w2. rewrite dispatch_by_key.
    destruct Hkey as [Hk|Hk]; rewrite Hk; [reflexivity|].
    unfold join, run_thread, _runCallbacks, try_except, bind, callbacks_getitem.
    cbn [thread_index thread_packet]. by rewrite Hk. }
  destruct message as [m|]; unfold logger; cbv beta iota; exact (Hq _).
Qed.

(** ** Decode failures and dispatch *)

(** C4, as the code has it.  A packet whose stream and function are not in
    the decode table is logged (the warning, then the packet) and
    dispatched by its header all the same.  A packet whose class is found
    is dispatched after its body was decoded; when the constructor or the
    codec's [decode] raises, the exception leaves [_onHsmsPacketReceived]
    and the packet is neither handed to a callback thread nor queued. *)
Theorem decode_then_dispatch (self : secsHandler) (packet : Packet) (w : Effects) :
  let s := stream (header packet) in
  let f := function (header packet) in
  _onHsmsPacketReceived self packet w
  = match resolve (decode_table self) s f with
    | None =>
        dispatch self packet
          (with_log w [unknown_function s f; received_record packet None])
    | Some cls =>
        match sf_init cls None with
        | Raised e => (Raised e, with_log w [decoding_record s f cls])
        | Returned _ =>
            match sf_decode cls (data packet) with
            | Raised e => (Raised e, with_log w [decoding_record s f cls])
            | Returned v =>
                dispatch self packet
                  (with_log w [decoding_record s f cls;
                               decoded_record (mkSecsObject cls v);
                               received_record packet (Some (mkSecsObject cls v))])
            end
        end
    end.
Proof.
  cbv zeta. unfold _onHsmsPacketReceived, bind.
  rewrite secsDecode_as_lookup.
  destruct (resolve (decode_table self) _ _) as [cls|]; cbn [decode_as].
  - unfold bind, lift, logger, ret.
    destruct (sf_init cls None) as [v0|e]; [|reflexivity].
    destruct (sf_decode cls (data packet)) as [v|e]; [|reflexivity].
    cbn. unfold with_log. cbn. by rewrite <- !app_assoc.
  - cbn. unfold with_log. cbn. by rewrite <- !app_assoc.
Qed.

(** C4 as the spec has it fails for a body the codec rejects: the host
    receives S6F11, the equipment table has a class for it, its [decode]
    raises, and the packet is neither queued nor given to the callback
    registered for it. *)
Lemma codec_error_aborts_dispatch :
  _onHsmsPacketReceived (sample_handler {[ "s6f11" := [declining "report"] ]})
                        (sample_packet 6 11) no_effects
  = (Raised (mkExc "ValueError" "malformed item"),
     mkEffects [] [decoding_record 6 11 (strict_class "secsS06F11")] [] [])
  /\ packetQueue
       (deliver (sample_handler {[ "s6f11" := [declining "report"] ]})
                (sample_packet 6 11) no_effects).2 = []
  /\ invoked
       (deliver (sample_handler {[ "s6f11" := [declining "report"] ]})
                (sample_packet 6 11) no_effects).2 = []
  /\ packetQueue (deliver (sample_handler ∅) (sample_packet 6 11) no_effects).2 = [].
Proof. repeat split; reflexivity. Qed.

(** A miss in the decode table does not stop the packet. *)
Example unknown_function_still_queued :
  deliver (sample_handler ∅) (sample_packet 9 9) no_effects
  = (Returned tt,
     mkEffects [sample_packet 9 9]
               [unknown_function 9 9; received_record (sample_packet 9 9) None] [] []).
Proof. reflexivity. Qed.

(** ** Convenience operations without a connection *)

(** C5.  Without a connection every convenience operation but [requestSV]
    returns [None] at once: nothing is sent, nothing is logged, nothing is
    raised.  [requestSV] subscripts the [None] that [requestSVs] returned
    and raises [TypeError], still without sending anything. *)
Theorem no_connection_results (is_host : bool) (cbs : gmap string (list Callback))
    (host_table equipment_table : Table) (op : Operation) (w : Effects) :
  perform (mkHandler is_host None cbs host_table equipment_table) op w
  = if is_requestSV op
    then (Raised (mkExc "TypeError" "'NoneType' object has no attribute '__getitem__'"), w)
    else (Returned RNone, w).
Proof. destruct op; reflexivity. Qed.

Example requestSV_without_connection :
  requestSV (sample_handler ∅) (PyInt 7) no_effects
  = (Raised (mkExc "TypeError" "'NoneType' object has no attribute '__getitem__'"),
     no_effects).
Proof. reflexivity. Qed.

Example requestEC_without_connection :
  requestEC (sample_handler ∅) (PyInt 7) no_effects = (Returned RNone, no_effects).
Proof. reflexivity. Qed.

(** ** Who shares the descriptor tables *)

Lemma deepcopy_fresh (h : Store.Heap) (l : Store.loc) (t : Table) :
  h !! l = Some t ->
  exists l', Store.deepcopy h l = Some (l', <[l' := t]> h) /\ h !! l' = None.
Proof.
  intros Hl. unfold Store.deepcopy. rewrite Hl. eexists. split; [reflexivity|].
  apply not_elem_of_dom. apply is_fresh.
Qed.

(** C8, as the code has it.  The two tables are deep-copied once, in the
    class body: the class gets two new objects with the content of the
    prototypes, and the prototypes stay as they were.  [__init__] copies
    nothing, so every instance reaches the tables of the class: a change
    made through one instance is what every other instance reads, and it
    never reaches the prototypes. *)
Theorem tables_copied_per_class (h : Store.Heap) (protos : Store.Prototypes)
    (th te : Table) :
  h !! Store.proto_Host protos = Some th ->
  h !! Store.proto_Equipment protos = Some te ->
  exists (c : Store.Class) (h' : Store.Heap),
    Store.class_body h protos = Some (c, h')
    /\ h' !! Store.class_Host c = Some th
    /\ h' !! Store.class_Equipment c = Some te
    /\ Store.class_Host c <> Store.class_Equipment c
    /\ (forall (a : string) (r : Store.Role),
          Store.getattr c (Store.__init__ a) r <> Store.proto_Host protos
          /\ Store.getattr c (Store.__init__ a) r <> Store.proto_Equipment protos)
    /\ (forall (a b : string) (r : Store.Role),
          Store.getattr c (Store.__init__ a) r = Store.getattr c (Store.__init__ b) r)
    /\ (forall (a b : string) (r : Store.Role) (change : Table -> Table),
          Store.read (Store.mutate h' c (Store.__init__ a) r change)
                     c (Store.__init__ b) r
          = change <$> Store.read h' c (Store.__init__ b) r)
    /\ (forall (a : string) (r : Store.Role) (change : Table -> Table),
          Store.mutate h' c (Store.__init__ a) r change !! Store.proto_Host protos
          = Some th
          /\ Store.mutate h' c (Store.__init__ a) r change !! Store.proto_Equipment protos
             = Some te).
Proof.
  intros Hh He.
  destruct (deepcopy_fresh h _ th Hh) as (lh & Hcopy1 & Hfresh1).
  assert (lh <> Store.proto_Host protos) as Hne1 by congruence.
  assert (lh <> Store.proto_Equipment protos) as Hne2 by congruence.
  assert (<[lh := th]> h !! Store.proto_Equipment protos = Some te) as He'
    by (by rewrite lookup_insert_ne).
  destruct (deepcopy_fresh _ _ te He') as (le & Hcopy2 & Hfresh2).
  assert (le <> lh) as Hne3 by (intros ->; by rewrite lookup_insert_eq in Hfresh2).
  assert (le <> Store.proto_Equipment protos) as Hne4 by congruence.
  assert (le <> Store.proto_Host protos) as Hne5.
  { intros ->. rewrite lookup_insert_ne in Hfresh2 by done. congruence. }
  exists (Store.mkClass lh le), (<[le := te]> (<[lh := th]> h)).
  split; [unfold Store.class_body; by rewrite Hcopy1, Hcopy2|].
  cbn [Store.class_Host Store.class_Equipment].
  split; [by rewrite lookup_insert_ne, lookup_insert_eq|].
  split; [by rewrite lookup_insert_eq|].
  split; [done|].
  split; [by intros a []|].
  split; [by intros a b []|].
  split.
  - intros a b r change. unfold Store.read, Store.mutate.
    by rewrite lookup_alter_eq.
  - intros a r change. unfold Store.mutate.
    assert (Store.getattr (Store.mkClass lh le) (Store.__init__ a) r
            <> Store.proto_Host protos
            /\ Store.getattr (Store.mkClass lh le) (Store.__init__ a) r
               <> Store.proto_Equipment protos) as [Hp1 Hp2] by (by destruct r).
    rewrite !lookup_alter_ne by done.
    by rewrite !lookup_insert_ne by done.
Qed.

Lemma tables_copied_per_class_witness :
  exists (c : Store.Class) (h' : Store.Heap),
    Store.class_body sample_heap sample_prototypes = Some (c, h')
    /\ Store.getattr c (Store.__init__ "tool-A") Store.Host
       = Store.getattr c (Store.__init__ "tool-B") Store.Host.
Proof.
  destruct (tables_copied_per_class sample_heap sample_prototypes
              (secsStreamsFunctionsHost (sample_handler ∅))
              (secsStreamsFunctionsEquipment (sample_handler ∅)))
    as (c & h' & Hbody & _ & _ & _ & _ & Hshared & _).
  - reflexivity.
  - reflexivity.
  - exists c, h'. split; [exact Hbody | apply Hshared].
Defined.

(** C8 as the spec has it fails: two handlers are built after the class
    body ran; a class is added for S1F99 to the host table through the
    first one, and the second one finds it in its host table. *)
Lemma mutation_leaks_across_instances :
  match Store.class_body sample_heap sample_prototypes with
  | Some (c, h) =>
      let tool_a := Store.__init__ "tool-A" in
      let tool_b := Store.__init__ "tool-B" in
      let h' := Store.mutate h c tool_a Store.Host
                  (Store.set_function 1 99 (plain_class "secsS01F99")) in
      tool_a <> tool_b
      /\ seen_by h c tool_b Store.Host 1 99 = None
      /\ seen_by h' c tool_b Store.Host 1 99 = Some "secsS01F99"
  | None => False
  end.
Proof. vm_compute. split; [discriminate|]. split; reflexivity. Qed.

(** The same seen from the resolver: the second handler's
    [streamFunction(1, 99)] changes its answer. *)
Example streamFunction_sees_the_leak :
  match Store.class_body sample_heap sample_prototypes with
  | Some (c, h) =>
      let h' := Store.mutate h c (Store.__init__ "tool-A") Store.Host
                  (Store.set_function 1 99 (plain_class "secsS01F99")) in
      match Store.snapshot h c (Store.__init__ "tool-B") None ∅,
            Store.snapshot h' c (Store.__init__ "tool-B") None ∅ with
      | Some before, Some after =>
          (streamFunction before 1 99 no_effects).1 = Returned None
          /\ (streamFunction after 1 99 no_effects).1
             = Returned (Some (plain_class "secsS01F99"))
      | _, _ => False
      end
  | None => False
  end.
Proof. vm_compute. split; reflexivity. Qed.

(** * Further properties *)

(** ** Keys do not collide *)

Lemma pretty_N_char_not_f (x : N) : pretty_N_char x <> "f"%char.
Proof. unfold pretty_N_char. repeat case_match; discriminate. Qed.

Lemma pretty_N_go_free (x : N) (s : string) :
  free_of "f" s -> free_of "f" (pretty_N_go x s).
Proof.
  revert s. induction (N.lt_wf_0 x) as [x _ IH]; intros s Hs.
  destruct (decide (x = 0)%N) as [->|Hx]; [by rewrite pretty_N_go_0|].
  rewrite pretty_N_go_step by lia.
  apply IH; [apply N.div_lt; lia|].
  split; [apply pretty_N_char_not_f | exact Hs].
Qed.

Lemma py_str_free (n : Z) : free_of "f" (py_str n).
Proof.
  destruct n as [|p|p].
  - cbn. split; [discriminate|done].
  - unfold py_str, pretty, pretty_Z, pretty, pretty_positive, pretty, pretty_N.
    destruct (decide (N.pos p = 0%N)); [done|]. by apply pretty_N_go_free.
  - change (py_str (Z.neg p)) with (String "-" (py_str (Z.pos p))).
    split; [discriminate|].
    unfold py_str, pretty, pretty_Z, pretty, pretty_positive, pretty, pretty_N.
    destruct (decide (N.pos p = 0%N)); [done|]. by apply pretty_N_go_free.
Qed.

(** Two texts cut at the first occurrence of a character are equal part
    by part. *)
Lemma split_at_char (a : ascii) (x x' y y' : string) :
  free_of a x -> free_of a x' ->
  x +:+ String a y = x' +:+ String a y' -> x = x' /\ y = y'.
Proof.
  revert x'. induction x as [|c x IH]; intros [|c' x'] Hx Hx' Heq.
  - by injection Heq as ->.
  - injection Heq as <- _. by destruct Hx' as [[] _].
  - injection Heq as -> _. by destruct Hx as [[] _].
  - change (String c (x +:+ String a y) = String c' (x' +:+ String a y')) in Heq.
    injection Heq as -> Heq. destruct Hx as [_ Hx], Hx' as [_ Hx'].
    destruct (IH x' Hx Hx' Heq) as [-> ->]. done.
Qed.

Lemma callback_index_inj (s f s' f' : Z) :
  callback_index s f = callback_index s' f' -> s = s' /\ f = f'.
Proof.
  unfold callback_index. intros Heq.
  change (String "s" (py_str s +:+ String "f" (py_str f))
          = String "s" (py_str s' +:+ String "f" (py_str f'))) in Heq.
  injection Heq as Heq.
  apply split_at_char in Heq as [Hs Hf]; [|apply py_str_free..].
  split; by apply pretty_Z_inj.
Qed.

(** X1.  Two packets for which the dispatch step starts a thread under
    the same key have the same stream and the same function: the callbacks
    registered for one stream/function pair are never started for a packet
    of another pair. *)
Theorem same_key_same_function (self : secsHandler) (p q : Packet) (w w' : Effects)
    (k : string) :
  started_index (dispatch self p w) = Some k ->
  started_index (dispatch self q w') = Some k ->
  stream (header p) = stream (header q) /\ function (header p) = function (header q).
Proof.
  unfold started_index. rewrite !dispatch_by_key.
  destruct (callbacks self !! _) as [cbs|]; [|done].
  destruct (callbacks self !! _) as [cbs'|]; [|done].
  cbn [fst thread_index]. intros H1 H2.
  apply callback_index_inj. apply (inj Some). unfold callback_index.
  by rewrite H1, H2.
Qed.

Lemma same_key_same_function_witness :
  stream (header (sample_packet 6 11))
  = stream (header (mkPacket (mkHeader 6 11 5 9 true) [1; 2]))
  /\ function (header (sample_packet 6 11))
     = function (header (mkPacket (mkHeader 6 11 5 9 true) [1; 2])).
Proof.
  apply (same_key_same_function
           (sample_handler {[ "s6f11" := [declining "report"] ]})
           (sample_packet 6 11) (mkPacket (mkHeader 6 11 5 9 true) [1; 2])
           no_effects no_effects "s6f11").
  - reflexivity.
  - reflexivity.
Defined.

(** ** What the callback thread can and cannot do *)

Lemma call_each_returned_all (cbs : list Callback) (response : Packet) (h b : bool)
    (w w' : Effects) :
  call_each cbs response h w = (Returned b, w') ->
  Forall (fun c => exists v, cb_call c response = Returned v) cbs.
Proof.
  revert h w. induction cbs as [|c cbs IH]; intros h w; [constructor|].
  cbn [call_each]. unfold bind. rewrite invoke_eq.
  destruct (cb_call c response) as [v|e] eqn:Hc; [|done].
  intros Hrest. constructor; [by exists v | by eapply IH].
Qed.

Lemma call_each_prefix (cbs : list Callback) (response : Packet) (h : bool)
    (w : Effects) :
  exists k : nat,
    invoked (call_each cbs response h w).2
    = invoked w ++ take k (calls_of response cbs).
Proof.
  revert h w. induction cbs as [|c cbs IH]; intros h w.
  - exists 0%nat. cbn. by rewrite app_nil_r.
  - cbn [call_each]. unfold bind. rewrite invoke_eq.
    destruct (cb_call c response) as [v|e].
    + destruct (IH (if negb (is_False v) then true else h)
                   (with_invoked w [(cb_name c, response)])) as [k Hk].
      exists (S k). rewrite Hk. cbn. by rewrite <- app_assoc.
    + exists 1%nat. reflexivity.
Qed.

(** X2.  When the key is not in [callbacks] at the time the thread runs,
    the [KeyError] is caught and logged like any callback error: no
    callback is called and the packet is not queued. *)
Theorem missing_key_drops_packet (self : secsHandler) (idx : string)
    (response : Packet) (w : Effects) :
  callbacks self !! idx = None ->
  _runCallbacks self idx response w
  = (Returned tt,
     with_log w [mkLog ERROR CallbackRunner_fmt [ArgExc (KeyError idx); ArgStack]])
  /\ exc_text (KeyError idx) = String "'" (idx +:+ "'").
Proof.
  intros Hk. split; [|reflexivity].
  unfold _runCallbacks, try_except, bind, callbacks_getitem. by rewrite Hk.
Qed.

Lemma missing_key_drops_packet_witness :
  _runCallbacks (sample_handler ∅) "s6f11" (sample_packet 6 11) no_effects
  = (Returned tt,
     mkEffects [] [mkLog ERROR CallbackRunner_fmt [ArgExc (KeyError "s6f11"); ArgStack]]
               [] []).
Proof.
  apply (missing_key_drops_packet (sample_handler ∅) "s6f11" (sample_packet 6 11)
           no_effects).
  reflexivity.
Defined.

(** X4.  With the key registered, the packet ends up on the queue if and
    only if every callback of the list returned [False]: one callback that
    returns anything else, or that raises, keeps it off. *)
Theorem queued_iff_all_decline (self : secsHandler) (idx : string)
    (response : Packet) (w : Effects) (cbs : list Callback) :
  callbacks self !! idx = Some cbs ->
  packetQueue (_runCallbacks self idx response w).2 = packetQueue w ++ [response]
  <-> Forall (fun c => cb_call c response = Returned (PyBool false)) cbs.
Proof.
  intros Hcbs. split.
  - intros Hq.
    assert (Forall (fun c => exists v, cb_call c response = Returned v) cbs) as Hret.
    { revert Hq. unfold _runCallbacks, try_except, bind, callbacks_getitem.
      rewrite Hcbs. cbn.
      pose proof (call_each_frame cbs response false w) as (Hf & _ & _).
      destruct (call_each cbs response false w) as [[b|e] w1] eqn:Hrun; cbn in *.
      - intros _. by eapply call_each_returned_all.
      - rewrite Hf. intros Hq. apply (f_equal length) in Hq.
        rewrite length_app in Hq. cbn in Hq. lia. }
    revert Hq. unfold _runCallbacks, try_except, bind, callbacks_getitem.
    rewrite Hcbs. cbn. rewrite (call_each_all_return _ _ _ _ Hret). cbn.
    destruct (existsb (sets_handeled response) cbs) eqn:Hex; cbn.
    { intros Hq. apply (f_equal length) in Hq. rewrite length_app in Hq.
      cbn in Hq. lia. }
    intros _. apply Forall_forall. intros c Hin.
    rewrite Forall_forall in Hret. destruct (Hret c Hin) as [v Hc]. rewrite Hc.
    assert (sets_handeled response c = false) as Hs.
    { destruct (sets_handeled response c) eqn:Hs; [|done].
      assert (existsb (sets_handeled response) cbs = true); [|congruence].
      apply existsb_exists. exists c. split; [by apply list_elem_of_In|done]. }
    unfold sets_handeled in Hs. rewrite Hc in Hs.
    do 2 f_equal. apply is_False_iff. by destruct (is_False v).
  - intros Hall.
    unfold _runCallbacks, try_except, bind, callbacks_getitem. rewrite Hcbs. cbn.
    assert (Forall (fun c => exists v, cb_call c response = Returned v) cbs) as Hret.
    { eapply Forall_impl; [exact Hall|]. intros c Hc. by exists (PyBool false). }
    rewrite (call_each_all_return _ _ _ _ Hret). cbn.
    by rewrite declined_sets_nothing.
Qed.

Lemma queued_iff_all_decline_witness :
  packetQueue
    (_runCallbacks
       (sample_handler {[ "s6f11" := [declining "first"; raising "second"] ]})
       "s6f11" (sample_packet 6 11) no_effects).2
  = packetQueue no_effects ++ [sample_packet 6 11]
  <-> Forall (fun c => cb_call c (sample_packet 6 11) = Returned (PyBool false))
             [declining "first"; raising "second"].
Proof.
  apply (queued_iff_all_decline
           (sample_handler {[ "s6f11" := [declining "first"; raising "second"] ]})
           "s6f11" (sample_packet 6 11) no_effects
           [declining "first"; raising "second"]).
  reflexivity.
Defined.

(** X5.  Callbacks are called in registration order without gaps: what
    [_runCallbacks] adds to the trace of invocations is always an initial
    part of the registered list, each call made with the packet itself. *)
Theorem invocations_are_a_prefix (self : secsHandler) (idx : string)
    (response : Packet) (w : Effects) :
  exists k : nat,
    invoked (_runCallbacks self idx response w).2
    = invoked w ++ take k (calls_of response (default [] (callbacks self !! idx))).
Proof.
  unfold _runCallbacks, try_except, bind, callbacks_getitem.
  destruct (callbacks self !! idx) as [cbs|]; cbn.
  - destruct (call_each_prefix cbs response false w) as [k Hk]. exists k.
    destruct (call_each cbs response false w) as [[[|]|e] w1]; cbn in *; exact Hk.
  - exists 0%nat. by rewrite app_nil_r.
Qed.

(** ** The receive path *)

Lemma secsDecode_frame (self : secsHandler) (packet : Packet) (w : Effects) :
  packetQueue (secsDecode self packet w).2 = packetQueue w
  /\ invoked (secsDecode self packet w).2 = invoked w
  /\ sent (secsDecode self packet w).2 = sent w.
Proof.
  rewrite secsDecode_as_lookup.
  destruct (resolve (decode_table self) _ _) as [cls|]; cbn [decode_as]; [|done].
  unfold bind, lift, logger, ret.
  destruct (sf_init cls None) as [v0|e]; cbn; [|done].
  by destruct (sf_decode cls (data packet)) as [v|e].
Qed.

(** X6.  [secsDecode] only logs: it never pushes on the queue, calls a
    callback or sends, and it keeps the records already logged, adding at
    most two. *)
Theorem secsDecode_only_logs (self : secsHandler) (packet : Packet) (w : Effects) :
  packetQueue (secsDecode self packet w).2 = packetQueue w
  /\ invoked (secsDecode self packet w).2 = invoked w
  /\ sent (secsDecode self packet w).2 = sent w
  /\ exists rs : list LogRecord,
       logged (secsDecode self packet w).2 = logged w ++ rs /\ (length rs <= 2)%nat.
Proof.
  rewrite secsDecode_as_lookup.
  destruct (resolve (decode_table self) _ _) as [cls|]; cbn [decode_as].
  - unfold bind, lift, logger, ret.
    destruct (sf_init cls None) as [v0|e]; cbn.
    + destruct (sf_decode cls (data packet)) as [v|e]; cbn.
      * repeat split. eexists [_; _]. split; [by rewrite <- app_assoc | cbn; lia].
      * repeat split. eexists [_]. split; [done | cbn; lia].
    + repeat split. eexists [_]. split; [done | cbn; lia].
  - cbn. repeat split. eexists [_]. split; [done | cbn; lia].
Qed.

Lemma secsDecode_when_returns (self : secsHandler) (packet : Packet) (w : Effects) :
  decoder_returns self packet ->
  exists (m : option SecsObject) (rs : list LogRecord),
    secsDecode self packet w = (Returned m, with_log w rs).
Proof.
  unfold decoder_returns. rewrite secsDecode_as_lookup.
  destruct (resolve (decode_table self) _ _) as [cls|]; cbn [decode_as].
  - intros [[v0 H0] [v Hv]]. unfold bind, lift, logger, ret. rewrite H0, Hv. cbn.
    eexists _, [_; _]. unfold with_log. cbn. by rewrite <- app_assoc.
  - intros _. by eexists _, [_].
Qed.

Lemma deliver_when_returns (self : secsHandler) (packet : Packet) (w : Effects) :
  decoder_returns self packet ->
  exists rs : list LogRecord,
    deliver self packet w
    = (started <- dispatch self packet ;; join self started) (with_log w rs).
Proof.
  intros Hret. destruct (secsDecode_when_returns self packet w Hret) as (m & rs & Hd).
  exists (rs ++ [received_record packet m]).
  unfold deliver, _onHsmsPacketReceived, bind. rewrite Hd.
  rewrite <- with_log_app. by destruct m.
Qed.

(** X7.  [_onHsmsPacketReceived] itself calls no callback and sends
    nothing.  It ends in one of three ways: a thread started for this
    packet under its key, which is registered, and nothing queued; no
    thread, the key not registered and the packet queued; or the decoder's
    exception, with nothing queued. *)
Theorem receive_path_outcomes (self : secsHandler) (packet : Packet) (w : Effects) :
  invoked (_onHsmsPacketReceived self packet w).2 = invoked w
  /\ sent (_onHsmsPacketReceived self packet w).2 = sent w
  /\ match (_onHsmsPacketReceived self packet w).1 with
     | Returned (Some t) =>
         thread_packet t = packet
         /\ thread_index t
            = callback_index (stream (header packet)) (function (header packet))
         /\ is_Some (callbacks self !! thread_index t)
         /\ packetQueue (_onHsmsPacketReceived self packet w).2 = packetQueue w
     | Returned None =>
         callbacks self
           !! callback_index (stream (header packet)) (function (header packet)) = None
         /\ packetQueue (_onHsmsPacketReceived self packet w).2
            = packetQueue w ++ [packet]
     | Raised _ =>
         packetQueue (_onHsmsPacketReceived self packet w).2 = packetQueue w
     end.
Proof.
  pose proof (secsDecode_frame self packet w) as (Hq & Hi & Hs).
  unfold _onHsmsPacketReceived, bind.
  destruct (secsDecode self packet w) as [[m|e] w1]; cbn in Hq, Hi, Hs; [|done].
  assert (forall r : LogRecord,
    let w2 := mkEffects (packetQueue w1) (logged w1 ++ [r]) (invoked w1) (sent w1) in
    invoked (dispatch self packet w2).2 = invoked w
    /\ sent (dispatch self packet w2).2 = sent w
    /\ match (dispatch self packet w2).1 with
       | Returned (Some t) =>
           thread_packet t = packet
           /\ thread_index t
              = callback_index (stream (header packet)) (function (header packet))
           /\ is_Some (callbacks self !! thread_index t)
           /\ packetQueue (dispatch self packet w2).2 = packetQueue w
       | Returned None =>
           callbacks self
             !! callback_index (stream (header packet)) (function (header packet)) = None
           /\ packetQueue (dispatch self packet w2).2 = packetQueue w ++ [packet]
       | Raised _ => packetQueue (dispatch self packet w2).2 = packetQueue w
       end) as Hd.
  { intros r w2. rewrite dispatch_by_key. fold (callback_index (stream (header packet))
      (function (header packet))).
    destruct (callbacks self !! callback_index _ _) as [cbs|] eqn:Hk; cbn.
    - rewrite Hk. repeat split; eauto.
    - rewrite Hq. repeat split; eauto. }
  destruct m as [m|]; unfold logger; cbv beta iota; apply Hd.
Qed.




Lemma no_callbacks_step (self : secsHandler) (packet : Packet) (w : Effects) :
  unclaimed self packet ->
  (started <- dispatch self packet ;; join self started) w
  = (Returned tt, with_queued w packet).
Proof.
  unfold unclaimed, callback_index. intros Hkey. unfold bind.
  rewrite dispatch_by_key. by rewrite Hkey.
Qed.

(** X9.  Packets nobody has registered for keep their arrival order:
    receiving a run of packets that the decoder gets through and whose
    keys are not in [callbacks] appends exactly these packets, in order,
    to the queue; no thread is involved and nothing is called. *)
Theorem unclaimed_packets_keep_order (self : secsHandler) (packets : list Packet)
    (w : Effects) :
  Forall (fun p => decoder_returns self p /\ unclaimed self p) packets ->
  (deliver_all self packets w).1 = Returned tt
  /\ packetQueue (deliver_all self packets w).2 = packetQueue w ++ packets
  /\ invoked (deliver_all self packets w).2 = invoked w.
Proof.
  intros Hall. revert w. induction Hall as [|p ps [Hret Hun] _ IH]; intros w.
  - cbn. by rewrite app_nil_r.
  - destruct (deliver_when_returns self p w Hret) as [rs Hd].
    assert (deliver_all self (p :: ps) w
            = deliver_all self ps (with_queued (with_log w rs) p)) as ->.
    { cbn [deliver_all]. unfold bind at 1. rewrite Hd.
      by rewrite (no_callbacks_step self p (with_log w rs) Hun). }
    destruct (IH (with_queued (with_log w rs) p)) as (H1 & H2 & H3).
    rewrite H1, H2, H3. cbn. by rewrite <- app_assoc.
Qed.

Lemma unclaimed_packets_keep_order_witness :
  (deliver_all (sample_handler {[ "s6f11" := [declining "report"] ]})
               [sample_packet 1 4; sample_packet 9 9; sample_packet 1 3] no_effects).1
  = Returned tt
  /\ packetQueue
       (deliver_all (sample_handler {[ "s6f11" := [declining "report"] ]})
                    [sample_packet 1 4; sample_packet 9 9; sample_packet 1 3] no_effects).2
     = packetQueue no_effects ++ [sample_packet 1 4; sample_packet 9 9; sample_packet 1 3]
  /\ invoked
       (deliver_all (sample_handler {[ "s6f11" := [declining "report"] ]})
                    [sample_packet 1 4; sample_packet 9 9; sample_packet 1 3] no_effects).2
     = invoked no_effects.
Proof.
  apply (unclaimed_packets_keep_order
           (sample_handler {[ "s6f11" := [declining "report"] ]})
           [sample_packet 1 4; sample_packet 9 9; sample_packet 1 3] no_effects).
  apply List.Forall_cons;
    [split|apply List.Forall_cons; [split|apply List.Forall_cons; [split|]]].
  - split; [by exists (PyList []) | by exists (PyList [])].
  - reflexivity.
  - exact I.
  - reflexivity.
  - exact I.
  - reflexivity.
  - apply List.Forall_nil.
Defined.

(** ** The resolver and the two roles *)

Lemma streamFunction_as_lookup (self : secsHandler) (s f : Z) (w : Effects) :
  streamFunction self s f w
  = match resolve (own_table self) s f with
    | Some cls => (Returned (Some cls), w)
    | None => (Returned None, with_log w [unknown_function s f])
    end.
Proof.
  unfold streamFunction, resolve. fold (own_table self).
  destruct (own_table self !! s) as [functions|]; [|reflexivity].
  destruct (functions !! f); reflexivity.
Qed.

(** X10.  [streamFunction] never raises and never looks at the table of
    the other role: replacing that table changes neither its result nor
    what it logs.  It leaves the queue, the invocations and the messages
    sent alone, and logs nothing on a hit. *)
Theorem streamFunction_own_table_only (self : secsHandler) (s f : Z) (w : Effects) :
  (forall t : Table,
     streamFunction (set_other_table self t) s f w = streamFunction self s f w)
  /\ (exists found : option SecsFunction,
        (streamFunction self s f w).1 = Returned found
        /\ (streamFunction self s f w).2
           = match found with
             | Some _ => w
             | None => with_log w [unknown_function s f]
             end)
  /\ packetQueue (streamFunction self s f w).2 = packetQueue w
  /\ invoked (streamFunction self s f w).2 = invoked w
  /\ sent (streamFunction self s f w).2 = sent w.
Proof.
  split.
  - intros t. rewrite !streamFunction_as_lookup.
    unfold own_table, set_other_table.
    destruct (isHost self) eqn:Hrole; cbn [isHost secsStreamsFunctionsHost
      secsStreamsFunctionsEquipment]; by rewrite ?Hrole.
  - rewrite streamFunction_as_lookup.
    destruct (resolve (own_table self) s f) as [cls|]; cbn.
    + split; [|done]. by exists (Some cls).
    + split; [|done]. by exists None.
Qed.

(** X11.  What one side builds the other side decodes with the same
    class: when a handler's [streamFunction(s, f)] returns a class, the
    handler of the other role holding the same two tables decodes every
    packet with stream [s] and function [f] with exactly that class, and
    when it returns [None] the other side logs the packet as unknown. *)
Theorem built_here_decoded_there (self : secsHandler) (packet : Packet)
    (conn : option Connection) (cbs : gmap string (list Callback)) (w w' : Effects)
    (found : option SecsFunction) :
  (streamFunction self (stream (header packet)) (function (header packet)) w).1
  = Returned found ->
  secsDecode (peer self conn cbs) packet w' = decode_as found packet w'.
Proof.
  rewrite streamFunction_as_lookup, secsDecode_as_lookup.
  assert (decode_table (peer self conn cbs) = own_table self) as ->.
  { unfold decode_table, own_table, peer. cbn. by destruct (isHost self). }
  destruct (resolve (own_table self) _ _) as [cls|]; cbn; by intros [= <-].
Qed.

Lemma built_here_decoded_there_witness :
  secsDecode (peer (sample_handler ∅) None ∅) (sample_packet 1 3) no_effects
  = decode_as (Some (plain_class "secsS01F03")) (sample_packet 1 3) no_effects.
Proof.
  apply (built_here_decoded_there (sample_handler ∅) (sample_packet 1 3) None ∅
           no_effects no_effects (Some (plain_class "secsS01F03"))).
  reflexivity.
Defined.

(** ** Convenience operations with a connection *)

Lemma quiet_ret {A : Type} (a : A) : quiet (ret a).
Proof. by intros w. Qed.

Lemma quiet_raise {A : Type} (e : PyExc) : quiet (@raise A e).
Proof. by intros w. Qed.

Lemma quiet_bind {A B : Type} (m : Py A) (k : A -> Py B) :
  quiet m -> (forall a, quiet (k a)) -> quiet (bind m k).
Proof.
  intros Hm Hk w. unfold bind. destruct (Hm w) as (H1 & H2 & H3).
  destruct (m w) as [[a|e] w1]; cbn in *; [|done].
  destruct (Hk a w1) as (H4 & H5 & H6). by rewrite H4, H5, H6.
Qed.

Lemma quiet_secsDecode_reply (self : secsHandler) (packet : option Packet) :
  quiet (secsDecode_reply self packet).
Proof.
  intros w. destruct packet as [p|]; [|done]. cbn [secsDecode_reply].
  by destruct (secsDecode_frame self p w) as (H1 & H2 & H3).
Qed.



Lemma quiet_subscript_0 (r : Result) : quiet (subscript_0 r).
Proof.
  intros w. destruct r as [| |o|v]; cbn; try done.
  - destruct (obj_value o) as [| | | |[|? ?]|]; done.
  - destruct v as [| | | |[|? ?]|]; done.
Qed.





Ltac unfold_operations :=
  unfold perform, disableCEIDs, disableCEIDReports, listSVs, requestSV, requestSVs,
    listECs, requestEC, requestECs, setEC, setECs, sendEquipmentTerminal,
    areYouThere, request_packet, request_decoded.

(** X13.  With a connection but no class for the operation's stream and
    function in the table of the handler's own role, the operation raises
    [TypeError] (it calls the [None] the resolver returned), after the
    resolver's warning; nothing is sent. *)
Theorem missing_descriptor_raises (self : secsHandler) (op : Operation)
    (conn : Connection) (w : Effects) :
  connection self = Some conn ->
  resolve (own_table self) (operation_function op).1 (operation_function op).2 = None ->
  perform self op w
  = (Raised NoneType_not_callable,
     with_log w [unknown_function (operation_function op).1 (operation_function op).2]).
Proof.
  intros Hc Hres.
  destruct op; cbn [operation_function fst snd] in Hres |- *; unfold_operations;
    rewrite Hc; unfold bind; rewrite streamFunction_as_lookup, Hres; reflexivity.
Qed.

Lemma missing_descriptor_raises_witness :
  perform (mkHandler true (Some (mkConnection (fun _ => Returned None))) ∅ ∅ ∅)
          OpAreYouThere no_effects
  = (Raised NoneType_not_callable, with_log no_effects [unknown_function 1 1]).
Proof.
  apply (missing_descriptor_raises
           (mkHandler true (Some (mkConnection (fun _ => Returned None))) ∅ ∅ ∅)
           OpAreYouThere (mkConnection (fun _ => Returned None)) no_effects).
  - reflexivity.
  - reflexivity.
Defined.

Lemma request_sends_message {A : Type} (self : secsHandler) (s f : Z)
    (args : option PyVal) (k : option Packet -> Py A) (w : Effects)
    (conn : Connection) (cls : SecsFunction) (v : PyVal) :
  (forall packet, quiet (k packet)) ->
  connection self = Some conn ->
  resolve (own_table self) s f = Some cls ->
  sf_init cls args = Returned v ->
  sent ((cls <- streamFunction self s f ;;
         message <- call_class cls args ;;
         packet <- sendAndWaitForResponse self message ;;
         k packet) w).2
  = sent w ++ [mkSecsObject cls v].
Proof.
  intros Hk Hc Hres Hinit. unfold bind.
  rewrite streamFunction_as_lookup, Hres. cbn [call_class].
  unfold bind, lift, ret. rewrite Hinit. unfold sendAndWaitForResponse. rewrite Hc.
  destruct (exchange conn (mkSecsObject cls v)) as [packet|e]; [|done].
  by destruct (Hk packet (mkEffects (packetQueue w) (logged w) (invoked w)
                                    (sent w ++ [mkSecsObject cls v]))) as (_ & _ & ->).
Qed.

(** X14.  With a connection, the class found in the table of the
    handler's own role under the operation's stream and function, and its
    constructor accepting the operation's arguments, the operation hands
    exactly one message to the transport: the instance of that class built
    from those arguments. *)
Theorem operation_sends_built_message (self : secsHandler) (op : Operation)
    (conn : Connection) (cls : SecsFunction) (v : PyVal) (w : Effects) :
  connection self = Some conn ->
  resolve (own_table self) (operation_function op).1 (operation_function op).2
  = Some cls ->
  sf_init cls (operation_arguments op) = Returned v ->
  sent (perform self op w).2 = sent w ++ [mkSecsObject cls v].
Proof.
  intros Hc Hres Hinit.
  assert (forall p, quiet (o <- secsDecode_reply self p ;; ret (of_object o))) as Hdec.
  { intros p. apply quiet_bind; [apply quiet_secsDecode_reply|]. intros o. apply quiet_ret. }
  assert (forall p, quiet (o <- secsDecode_reply self p ;;
                           match o with
                           | None => raise (NoneType_no_attribute "get")
                           | Some o => ret (RValue (obj_value o))
                           end)) as Hset.
  { intros p. apply quiet_bind; [apply quiet_secsDecode_reply|].
    intros [o|]; [apply quiet_ret | apply quiet_raise]. }
  assert (forall p : option Packet, quiet (ret (of_packet p))) as Hpkt
    by (intros p; apply quiet_ret).
  assert (forall p : option Packet, quiet (@ret Result RNone)) as Hnone
    by (intros p; apply quiet_ret).
  destruct op; cbn [operation_function operation_arguments fst snd] in Hres, Hinit;
    unfold_operations; rewrite Hc;
    try (by eapply request_sends_message).
  (* requestSV: the subscript sends nothing *)
  unfold bind at 1.
  pose proof (request_sends_message self 1 3 (Some (PyList [sv])) _ w conn cls v
                Hdec Hc Hres Hinit) as Hsent.
  destruct ((cls0 <- streamFunction self 1 3 ;;
             message <- call_class cls0 (Some (PyList [sv])) ;;
             packet <- sendAndWaitForResponse self message ;;
             o <- secsDecode_reply self packet ;; ret (of_object o)) w)
    as [[r|e] w1]; cbn in *; [|done].
  by destruct (quiet_subscript_0 r w1) as (_ & _ & ->).
Qed.

Lemma operation_sends_built_message_witness :
  sent (perform (mkHandler true (Some (mkConnection (fun _ => Returned None))) ∅
                           {[ 1 := {[ 3 := plain_class "secsS01F03" ]} ]} ∅)
                (OpRequestSVs (PyList [PyInt 7])) no_effects).2
  = sent no_effects
    ++ [mkSecsObject (plain_class "secsS01F03") (PyList [PyInt 7])].
Proof.
  apply (operation_sends_built_message
           (mkHandler true (Some (mkConnection (fun _ => Returned None))) ∅
                      {[ 1 := {[ 3 := plain_class "secsS01F03" ]} ]} ∅)
           (OpRequestSVs (PyList [PyInt 7]))
           (mkConnection (fun _ => Returned None))
           (plain_class "secsS01F03") (PyList [PyInt 7]) no_effects).
  - reflexivity.
  - reflexivity.
  - reflexivity.
Defined.

(** X15.  When the transport hands back [None] instead of a reply, the
    operations that decode the reply raise [AttributeError] (they read
    [packet.header] of [None]), while the ones that return the reply as it
    is, and [areYouThere], return [None]; in both cases the message was
    sent. *)
Theorem no_reply_outcome (self : secsHandler) (op : Operation)
    (conn : Connection) (cls : SecsFunction) (v : PyVal) (w : Effects) :
  connection self = Some conn ->
  resolve (own_table self) (operation_function op).1 (operation_function op).2
  = Some cls ->
  sf_init cls (operation_arguments op) = Returned v ->
  exchange conn (mkSecsObject cls v) = Returned None ->
  perform self op w
  = (if decodes_reply op then Raised (NoneType_no_attribute "header")
     else Returned RNone,
     mkEffects (packetQueue w) (logged w) (invoked w)
               (sent w ++ [mkSecsObject cls v])).
Proof.
  intros Hc Hres Hinit Hex.
  destruct op; cbn [operation_function operation_arguments fst snd decodes_reply]
    in Hres, Hinit |- *;
    unfold_operations; rewrite ?Hc; unfold bind;
    rewrite streamFunction_as_lookup, Hres; cbn [call_class];
    unfold bind, lift, ret; rewrite Hinit;
    unfold sendAndWaitForResponse; rewrite Hc, Hex; reflexivity.
Qed.

Lemma no_reply_outcome_witness :
  perform (mkHandler true (Some (mkConnection (fun _ => Returned None))) ∅
                     {[ 1 := {[ 11 := plain_class "secsS01F11" ]} ]} ∅)
          OpListSVs no_effects
  = (Raised (NoneType_no_attribute "header"),
     mkEffects [] [] [] [mkSecsObject (plain_class "secsS01F11") (PyList [])]).
Proof.
  apply (no_reply_outcome
           (mkHandler true (Some (mkConnection (fun _ => Returned None))) ∅
                      {[ 1 := {[ 11 := plain_class "secsS01F11" ]} ]} ∅)
           OpListSVs (mkConnection (fun _ => Returned None))
           (plain_class "secsS01F11") (PyList []) no_effects).
  - reflexivity.
  - reflexivity.
  - reflexivity.
  - reflexivity.
Defined.

Lemma request_packet_shape (self : secsHandler) (s f : Z) (args : option PyVal)
    (w : Effects) (r : Result) :
  (request_packet self s f args w).1 = Returned r ->
  r = RNone \/ exists p, r = RPacket p.
Proof.
  unfold request_packet, bind.
  destruct (streamFunction self s f w) as [[cls|e] w1]; [|done].
  destruct (call_class cls args w1) as [[m|e] w2]; [|done].
  destruct (sendAndWaitForResponse self m w2) as [[[p|]|e] w3]; cbn; [| |done].
  - intros [= <-]. right. by exists p.
  - intros [= <-]. by left.
Qed.

Lemma request_decoded_shape (self : secsHandler) (s f : Z) (args : option PyVal)
    (w : Effects) (r : Result) :
  (request_decoded self s f args w).1 = Returned r ->
  r = RNone \/ exists o, r = RObject o.
Proof.
  unfold request_decoded, bind.
  destruct (streamFunction self s f w) as [[cls|e] w1]; [|done].
  destruct (call_class cls args w1) as [[m|e] w2]; [|done].
  destruct (sendAndWaitForResponse self m w2) as [[p|e] w3]; [|done].
  destruct (secsDecode_reply self p w3) as [[[o|]|e] w4]; cbn; [| |done].
  - intros [= <-]. right. by exists o.
  - intros [= <-]. by left.
Qed.

(** X16.  What each operation but [requestSV] can return.  [areYouThere]
    returns [None] whether or not a reply came; the operations that do not
    decode return [None] or the reply packet; the queries and [requestEC]
    return [None] or a decoded message object; [setECs] and [setEC] return
    [None] or a plain value. *)
Theorem operation_result_shape (self : secsHandler) (op : Operation) (w : Effects) :
  match (perform self op w).1 with
  | Returned r => result_shape op r = true
  | Raised _ => True
  end.
Proof.
  assert (forall s f args w0,
    match (request_packet self s f args w0).1 with
    | Returned (RNone | RPacket _) | Raised _ => True
    | Returned _ => False
    end) as Hp.
  { intros s f args w0. pose proof (request_packet_shape self s f args w0) as H.
    destruct (request_packet self s f args w0).1 as [r|e]; [|done].
    destruct (H r eq_refl) as [->|[p ->]]; done. }
  assert (forall s f args w0,
    match (request_decoded self s f args w0).1 with
    | Returned (RNone | RObject _) | Raised _ => True
    | Returned _ => False
    end) as Hd.
  { intros s f args w0. pose proof (request_decoded_shape self s f args w0) as H.
    destruct (request_decoded self s f args w0).1 as [r|e]; [|done].
    destruct (H r eq_refl) as [->|[o ->]]; done. }
  destruct op; cbn [perform];
    unfold disableCEIDs, disableCEIDReports, listSVs, requestSVs, listECs,
      requestEC, requestECs, sendEquipmentTerminal;
    try (destruct (connection self); [|done]).
  - specialize (Hp 2 37 (Some (PyDict [("CEED", PyBool false); ("CEID", PyList [])])) w).
    by destruct (request_packet self 2 37 _ w).1 as [[]|].
  - specialize (Hp 2 33 (Some (PyDict [("DATAID", PyInt 0); ("DATA", PyList [])])) w).
    by destruct (request_packet self 2 33 _ w).1 as [[]|].
  - specialize (Hd 1 11 (Some (PyList [])) w).
    by destruct (request_decoded self 1 11 _ w).1 as [[]|].
  - specialize (Hd 1 3 (Some svs) w).
    by destruct (request_decoded self 1 3 _ w).1 as [[]|].
  - (* requestSV *)
    by destruct (requestSV self sv w).1.
  - specialize (Hd 2 29 (Some (PyList [])) w).
    by destruct (request_decoded self 2 29 _ w).1 as [[]|].
  - specialize (Hd 2 13 (Some ecs) w).
    by destruct (request_decoded self 2 13 _ w).1 as [[]|].
  - specialize (Hd 2 13 (Some (PyList [ec])) w).
    by destruct (request_decoded self 2 13 _ w).1 as [[]|].
  - (* setECs *)
    unfold setECs, bind. destruct (connection self); [|done].
    destruct (streamFunction self 2 15 w) as [[cls|e] w1]; [|done].
    destruct (call_class cls (Some ecs) w1) as [[m|e] w2]; [|done].
    destruct (sendAndWaitForResponse self m w2) as [[p|e] w3]; [|done].
    by destruct (secsDecode_reply self p w3) as [[[o|]|e] w4].
  - (* setEC *)
    unfold setEC, setECs, bind. destruct (connection self); [|done].
    destruct (streamFunction self 2 15 w) as [[cls|e] w1]; [|done].
    destruct (call_class cls _ w1) as [[m|e] w2]; [|done].
    destruct (sendAndWaitForResponse self m w2) as [[p|e] w3]; [|done].
    by destruct (secsDecode_reply self p w3) as [[[o|]|e] w4].
  - specialize (Hp 10 3 (Some (PyDict [("TID", terminal_id); ("TEXT", text)])) w).
    by destruct (request_packet self 10 3 _ w).1 as [[]|].
  - (* areYouThere *)
    unfold areYouThere, bind. destruct (connection self); [|done].
    destruct (streamFunction self 1 1 w) as [[cls|e] w1]; [|done].
    destruct (call_class cls None w1) as [[m|e] w2]; [|done].
    by destruct (sendAndWaitForResponse self m w2) as [[p|e] w3].
Qed.

(** ** The tables of the class, once more *)

Lemma class_body_runs (h : Store.Heap) (protos : Store.Prototypes) (th te : Table) :
  h !! Store.proto_Host protos = Some th ->
  h !! Store.proto_Equipment protos = Some te ->
  exists lh le : Store.loc,
    Store.class_body h protos
    = Some (Store.mkClass lh le, <[le := te]> (<[lh := th]> h))
    /\ lh <> le
    /\ lh <> Store.proto_Host protos /\ lh <> Store.proto_Equipment protos
    /\ le <> Store.proto_Host protos /\ le <> Store.proto_Equipment protos.
Proof.
  intros Hh He.
  destruct (deepcopy_fresh h _ th Hh) as (lh & Hcopy1 & Hfresh1).
  assert (<[lh := th]> h !! Store.proto_Equipment protos = Some te) as He'.
  { rewrite lookup_insert_ne; [done|congruence]. }
  destruct (deepcopy_fresh _ _ te He') as (le & Hcopy2 & Hfresh2).
  exists lh, le. split; [unfold Store.class_body; by rewrite Hcopy1, Hcopy2|].
  split; [intros ->; by rewrite lookup_insert_eq in Hfresh2|].
  split; [congruence|]. split; [congruence|]. split; [|congruence].
  intros ->. destruct (decide (lh = Store.proto_Host protos)) as [->|Hne]; [congruence|].
  rewrite lookup_insert_ne in Hfresh2 by done. congruence.
Qed.

(** X17.  The host table and the equipment table of the class are two
    objects: an in-place change made through an instance to the table of
    one role leaves what every instance reads as the table of the other
    role as it was. *)
Theorem roles_do_not_share (h h' : Store.Heap) (protos : Store.Prototypes)
    (th te : Table) (c : Store.Class) (a b : string) (r r' : Store.Role)
    (change : Table -> Table) :
  h !! Store.proto_Host protos = Some th ->
  h !! Store.proto_Equipment protos = Some te ->
  Store.class_body h protos = Some (c, h') ->
  r <> r' ->
  Store.read (Store.mutate h' c (Store.__init__ a) r change) c (Store.__init__ b) r'
  = Store.read h' c (Store.__init__ b) r'.
Proof.
  intros Hh He Hbody Hr.
  destruct (class_body_runs h protos th te Hh He) as (lh & le & Hrun & Hne & _).
  rewrite Hrun in Hbody. injection Hbody as <- <-.
  unfold Store.read, Store.mutate.
  destruct r, r'; try done; cbn; by rewrite lookup_alter_ne.
Qed.

Lemma roles_do_not_share_witness :
  exists (c : Store.Class) (h' : Store.Heap),
    Store.class_body sample_heap sample_prototypes = Some (c, h')
    /\ Store.read (Store.mutate h' c (Store.__init__ "tool-A") Store.Host
                                (Store.set_function 1 99 (plain_class "secsS01F99")))
                  c (Store.__init__ "tool-B") Store.Equipment
       = Store.read h' c (Store.__init__ "tool-B") Store.Equipment.
Proof.
  destruct (Store.class_body sample_heap sample_prototypes) as [[c h']|] eqn:Hbody;
    [|vm_compute in Hbody; discriminate Hbody].
  exists c, h'. split; [reflexivity|].
  apply (roles_do_not_share sample_heap h' sample_prototypes
           (secsStreamsFunctionsHost (sample_handler ∅))
           (secsStreamsFunctionsEquipment (sample_handler ∅))
           c "tool-A" "tool-B" Store.Host Store.Equipment).
  - reflexivity.
  - reflexivity.
  - exact Hbody.
  - discriminate.
Defined.

(** X18.  After the class body ran, an in-place change of a prototype
    table of [secsFunctions] is not seen by any handler. *)
Theorem prototype_changes_not_seen (h h' : Store.Heap) (protos : Store.Prototypes)
    (th te : Table) (c : Store.Class) (a : string) (r : Store.Role)
    (change : Table -> Table) :
  h !! Store.proto_Host protos = Some th ->
  h !! Store.proto_Equipment protos = Some te ->
  Store.class_body h protos = Some (c, h') ->
  Store.read (alter change (Store.proto_Host protos) h') c (Store.__init__ a) r
  = Store.read h' c (Store.__init__ a) r
  /\ Store.read (alter change (Store.proto_Equipment protos) h') c (Store.__init__ a) r
     = Store.read h' c (Store.__init__ a) r.
Proof.
  intros Hh He Hbody.
  destruct (class_body_runs h protos th te Hh He)
    as (lh & le & Hrun & _ & H1 & H2 & H3 & H4).
  rewrite Hrun in Hbody. injection Hbody as <- <-.
  unfold Store.read. destruct r; cbn; split; by rewrite lookup_alter_ne.
Qed.

Lemma prototype_changes_not_seen_witness :
  exists (c : Store.Class) (h' : Store.Heap),
    Store.class_body sample_heap sample_prototypes = Some (c, h')
    /\ Store.read (alter (Store.set_function 1 99 (plain_class "secsS01F99"))
                         (Store.proto_Host sample_prototypes) h')
                  c (Store.__init__ "tool-A") Store.Host
       = Store.read h' c (Store.__init__ "tool-A") Store.Host.
Proof.
  destruct (Store.class_body sample_heap sample_prototypes) as [[c h']|] eqn:Hbody;
    [|vm_compute in Hbody; discriminate Hbody].
  exists c, h'. split; [reflexivity|].
  apply (prototype_changes_not_seen sample_heap h' sample_prototypes
           (secsStreamsFunctionsHost (sample_handler ∅))
           (secsStreamsFunctionsEquipment (sample_handler ∅))
           c "tool-A" Store.Host
           (Store.set_function 1 99 (plain_class "secsS01F99"))).
  - reflexivity.
  - reflexivity.
  - exact Hbody.
Defined.

(** X19.  A handler as [__init__] leaves it acts as the host: it
    resolves in the content the host prototype had when the class body ran
    and decodes with the content the equipment prototype had. *)
Theorem new_handler_is_host (h h' : Store.Heap) (protos : Store.Prototypes)
    (th te : Table) (c : Store.Class) (a : string) (conn : option Connection)
    (cbs : gmap string (list Callback)) :
  h !! Store.proto_Host protos = Some th ->
  h !! Store.proto_Equipment protos = Some te ->
  Store.class_body h protos = Some (c, h') ->
  exists self : secsHandler,
    Store.snapshot h' c (Store.__init__ a) conn cbs = Some self
    /\ isHost self = true
    /\ own_table self = th
    /\ decode_table self = te.
Proof.
  intros Hh He Hbody.
  destruct (class_body_runs h protos th te Hh He) as (lh & le & Hrun & Hne & _).
  rewrite Hrun in Hbody. injection Hbody as <- <-.
  exists (mkHandler true conn cbs th te).
  split; [|done]. unfold Store.snapshot, Store.read. cbn.
  by rewrite lookup_insert_ne, !lookup_insert_eq.
Qed.

Lemma new_handler_is_host_witness :
  exists (c : Store.Class) (h' : Store.Heap),
    Store.class_body sample_heap sample_prototypes = Some (c, h')
    /\ exists self : secsHandler,
         Store.snapshot h' c (Store.__init__ "tool-A") None ∅ = Some self
         /\ isHost self = true
         /\ own_table self = secsStreamsFunctionsHost (sample_handler ∅)
         /\ decode_table self = secsStreamsFunctionsEquipment (sample_handler ∅).
Proof.
  destruct (Store.class_body sample_heap sample_prototypes) as [[c h']|] eqn:Hbody;
    [|vm_compute in Hbody; discriminate Hbody].
  exists c, h'. split; [reflexivity|].
  apply (new_handler_is_host sample_heap h' sample_prototypes
           (secsStreamsFunctionsHost (sample_handler ∅))
           (secsStreamsFunctionsEquipment (sample_handler ∅))
           c "tool-A" None ∅).
  - reflexivity.
  - reflexivity.
  - exact Hbody.
Defined.

(** ** Names of collection events and data values *)

(** X20.  [getCEIDName] gives the empty string for an identifier that is
    not in [ceids] and for an entry without a ["name"] (so also for every
    identifier on the class as written, whose [ceids] is empty); after an
    entry with a name is put under an identifier it gives that name there
    and what it gave before everywhere else; [dvs] plays no part. *)
Theorem getCEIDName_lookup (cs ds ds' : gmap Z (gmap string PyVal)) (ceid other : Z)
    (entry : gmap string PyVal) (name : PyVal) :
  getCEIDName (mkCatalogue (delete ceid cs) ds) ceid = PyStr ""
  /\ getCEIDName (mkCatalogue (<[ceid := delete "name" entry]> cs) ds) ceid = PyStr ""
  /\ getCEIDName base_catalogue ceid = PyStr ""
  /\ getCEIDName (mkCatalogue (<[ceid := <["name" := name]> entry]> cs) ds) other
     = (if decide (other = ceid) then name else getCEIDName (mkCatalogue cs ds) other)
  /\ getCEIDName (mkCatalogue cs ds) ceid = getCEIDName (mkCatalogue cs ds') ceid.
Proof.
  unfold getCEIDName. cbn [ceids].
  split; [by rewrite lookup_delete_eq|].
  split; [by rewrite lookup_insert_eq, lookup_delete_eq|].
  split; [done|]. split; [|done].
  destruct (decide (other = ceid)) as [->|Hne].
  - by rewrite !lookup_insert_eq.
  - by rewrite lookup_insert_ne.
Qed.

(** X21.  [getDVIDName] does the same on [dvs], and [ceids] plays no
    part. *)
Theorem getDVIDName_lookup (cs cs' ds : gmap Z (gmap string PyVal)) (dvid other : Z)
    (entry : gmap string PyVal) (name : PyVal) :
  getDVIDName (mkCatalogue cs (delete dvid ds)) dvid = PyStr ""
  /\ getDVIDName (mkCatalogue cs (<[dvid := delete "name" entry]> ds)) dvid = PyStr ""
  /\ getDVIDName base_catalogue dvid = PyStr ""
  /\ getDVIDName (mkCatalogue cs (<[dvid := <["name" := name]> entry]> ds)) other
     = (if decide (other = dvid) then name else getDVIDName (mkCatalogue cs ds) other)
  /\ getDVIDName (mkCatalogue cs ds) dvid = getDVIDName (mkCatalogue cs' ds) dvid.
Proof.
  unfold getDVIDName. cbn [dvs].
  split; [by rewrite lookup_delete_eq|].
  split; [by rewrite lookup_insert_eq, lookup_delete_eq|].
  split; [done|]. split; [|done].
  destruct (decide (other = dvid)) as [->|Hne].
  - by rewrite !lookup_insert_eq.
  - by rewrite lookup_insert_ne.
Qed.

(** ** Packets without callbacks, from arrival *)



